(** * usePoolsQuery: the pool-fetching pipeline of the frontend

  A shallow embedding of the two versions of the [usePoolsQuery] composable:

  - [Legacy]: [src/composables/queries/usePoolsQuery.ts], which queries
    through the SDK's fallback repository with a string cursor;
  - [Current]: the later version of the same composable, which queries the
    Balancer API with a numeric offset and keeps a local pool store.

  JavaScript values are modelled by what the code can observe of them:
  a [number] that is used as an offset or a page size is an integer [Z],
  and the sum of two of them is rounded as the sum of two doubles is; a
  [number] or decimal string that is only compared is its exact rational
  value [Q]; [undefined] is [None], a rejected promise is [Throw]. *)

From Stdlib Require Import List String Ascii ZArith QArith Lia Bool.
From Stdlib Require Import Permutation Sorted Lqa Qround Qabs Qpower.
Import ListNotations.

Set Implicit Arguments.

(** ** JavaScript base *)

Module JS.

(** ToBoolean, on the types the composable tests. *)
Class Truthy (A : Type) := truthy : A -> bool.

#[export] Instance truthy_number : Truthy Z := fun n => negb (n =? 0)%Z.
#[export] Instance truthy_nat : Truthy nat := fun n => negb (n =? 0)%nat.
#[export] Instance truthy_string : Truthy string :=
  fun s => match s with EmptyString => false | String _ _ => true end.
#[export] Instance truthy_boolean : Truthy bool := fun b => b.
(** An array is an object: truthy even when empty. *)
#[export] Instance truthy_array {A} : Truthy (list A) := fun _ => true.
#[export] Instance truthy_optional {A} `{Truthy A} : Truthy (option A) :=
  fun o => match o with Some a => truthy a | None => false end.

(** [a || b] where [a] may be undefined. *)
Definition or_else {A} `{Truthy A} (a : option A) (b : A) : A :=
  match a with
  | Some x => if truthy x then x else b
  | None => b
  end.

(** [a ?? b] *)
Definition nullish {A} (a : option A) (b : A) : A :=
  match a with Some x => x | None => b end.

(** [String.prototype.toLowerCase] on ASCII strings, which is what
    hexadecimal addresses are.  The builtin also lower-cases the cased
    characters beyond ASCII; the model leaves those code units alone, so
    what is proved of a lower-cased value is stated for ASCII strings. *)
Definition lower_ascii (c : ascii) : ascii :=
  let n := nat_of_ascii c in
  if ((65 <=? n) && (n <=? 90))%nat then ascii_of_nat (n + 32) else c.

Fixpoint toLowerCase (s : string) : string :=
  match s with
  | EmptyString => EmptyString
  | String c rest => String (lower_ascii c) (toLowerCase rest)
  end.

Definition is_upper (c : ascii) : bool :=
  let n := nat_of_ascii c in ((65 <=? n) && (n <=? 90))%nat.

Fixpoint has_upper (s : string) : bool :=
  match s with
  | EmptyString => false
  | String c rest => is_upper c || has_upper rest
  end.

(** A string of ASCII characters only. *)
Fixpoint is_ascii (s : string) : bool :=
  match s with
  | EmptyString => true
  | String c rest => (nat_of_ascii c <? 128)%nat && is_ascii rest
  end.

(** What it is for [lowered] to be the lower-cased form of an ASCII string
    [s], said without the function: the two have the same length, a letter
    [A] to [Z] of [s] stands in [lowered] as the character 32 places further
    on, its small letter, and every other character stands as itself. *)
Fixpoint is_lower_cased_form (s lowered : string) : bool :=
  match s, lowered with
  | EmptyString, EmptyString => true
  | String c rest, String c' rest' =>
      (if ((65 <=? nat_of_ascii c) && (nat_of_ascii c <=? 90))%nat
       then (nat_of_ascii c' =? nat_of_ascii c + 32)%nat
       else Ascii.eqb c' c)
      && is_lower_cased_form rest rest'
  | _, _ => false
  end.

(** The [+] of two integer numbers: the exact sum rounded to the nearest
    double, ties to even.  Every integer up to 2^53 in magnitude is a double;
    beyond, a double keeps 53 significant bits.  (A sum beyond the largest
    double, where the code gives an infinity, is outside the model.) *)
Definition round_integer (n : Z) : Z :=
  let a := Z.abs n in
  if (a <=? 2 ^ 53)%Z then n
  else
    let e := (Z.log2 a - 52)%Z in
    let m := (a / 2 ^ e)%Z in
    let r := (a mod 2 ^ e)%Z in
    let half := (2 ^ (e - 1))%Z in
    let m' :=
      if (half <? r)%Z || ((r =? half)%Z && Z.odd m) then (m + 1)%Z else m in
    (Z.sgn n * (m' * 2 ^ e))%Z.

Definition add (a b : Z) : Z := round_integer (a + b).

(** The integers up to 2^53 in magnitude. *)
Definition safe_integer (n : Z) : Prop := (Z.abs n <= 2 ^ 53)%Z.

(** [Array.prototype.sort] with a comparison function.  The sort is stable,
    and where the comparison function is consistent every stable sort
    returns the same array; the model is the insertion sort.  An element
    stays ahead of a later one unless the function puts it after. *)
Fixpoint sort_insert {A} (compareFn : A -> A -> Q) (x : A) (l : list A) : list A :=
  match l with
  | [] => [x]
  | y :: rest =>
      if Qle_bool (compareFn x y) 0 then x :: y :: rest
      else y :: sort_insert compareFn x rest
  end.

Definition sort {A} (compareFn : A -> A -> Q) (l : list A) : list A :=
  fold_right (sort_insert compareFn) [] l.

(** Descending order by a numeric key. *)
Definition descending_by {A} (key : A -> Q) (a b : A) : Prop := key b <= key a.

(** [bnum] builds a BigNumber, an arbitrary-precision decimal: the model keeps
    its exact value, and [minus] is exact.  Strings that are not decimals (a
    BigNumber NaN) are outside the model. *)
Definition bnum (x : Q) : Q := x.
Definition BigNumber_minus (x y : Q) : Q := x - y.

(** [toNumber] converts a BigNumber to the nearest double, ties to even.  A
    double is an integer of at most 53 bits times a power of two that is not
    below 2^-1074: [floor_log2] finds the binade, [round_half_even] rounds
    the scaled magnitude to an integer.  A magnitude of at most 2^-1075 so
    becomes 0.  (A magnitude beyond the largest double becomes an infinity in
    the code; the model keeps the rounded finite value, of the same sign.) *)
Definition round_half_even (s : Q) : Z :=
  let f := Qfloor s in
  match Qcompare (s - inject_Z f) (1 # 2) with
  | Lt => f
  | Gt => (f + 1)%Z
  | Eq => if Z.even f then f else (f + 1)%Z
  end.

Definition floor_log2 (a : Q) : Z :=
  let d := (Z.log2 (Qnum a) - Z.log2 (Zpos (Qden a)))%Z in
  if Qle_bool (Qpower 2 d) a then d else (d - 1)%Z.

Definition nearest_double (a : Q) : Q :=
  let e := Z.max (-1074) (floor_log2 a - 52) in
  (inject_Z (round_half_even (a / Qpower 2 e)) * Qpower 2 e)%Q.

Definition toNumber (x : Q) : Q :=
  match Qnum x with
  | Z0 => 0%Q
  | Zpos _ => nearest_double x
  | Zneg _ => (- nearest_double (- x))%Q
  end.

(** Half the least positive double: a difference of this magnitude or less
    is converted to 0. *)
Definition half_least_double : Q := Qpower 2 (-1075).

(** Keys that [toNumber] can tell apart: any two of them are equal or differ
    by more than [half_least_double]. *)
Definition distinguishable {A} (key : A -> Q) (l : list A) : Prop :=
  forall a b, In a l -> In b l ->
    key a == key b \/ half_least_double < Qabs (key a - key b).

(** A thrown value. *)
Inductive Error := mkError (message : string).

(** The outcome of awaiting a promise. *)
Inductive Completion (A : Type) :=
| Return (a : A)
| Throw (e : Error).
Arguments Return {A} a.
Arguments Throw {A} e.

Definition bind {A B} (c : Completion A) (k : A -> Completion B) : Completion B :=
  match c with
  | Return a => k a
  | Throw e => Throw e
  end.

End JS.
Import JS.

Notation "'await' x <- c ;; k" := (JS.bind c (fun x => k))
(at level 61, c at next level, right associativity).

(** ** Pools *)

Record PoolApr := mkApr { apr_min : option Q; apr_max : option Q }.

Record PoolToken := mkPoolToken {
  token_address : string;
  token_balance : string;
  token_weight : option string;
  token_priceRate : option string;
  token_symbol : option string
}.

(** The fields of a pool the composables select or read.  Decimal strings
    that the code only passes on stay strings; [totalSwapVolume], which the
    client-side sort parses, holds the value its string denotes, and
    [apr_max] the value of the number. *)
Record Pool := mkPool {
  id : string;
  address : string;
  poolType : string;
  tokensList : list string;
  pool_tokens : list PoolToken;
  totalLiquidity : string;
  totalSwapVolume : option Q;
  apr : option PoolApr
}.

(** ** The paginated sequence *)

Module Pagination.

Inductive State (C : Type) : Type :=
| HasMore (cursor : option C)
| Exhausted.
Arguments HasMore {C} cursor.
Arguments Exhausted {C}.

Record Sequence (C Page : Type) := {
  state : State C;
  pages : list Page
}.

Section Controller.
Context {C Page W : Type} `{Truthy C}.

(** The two callbacks a composable hands to [useInfiniteQuery]; [W] is the
    state the query function reads and writes outside the sequence. *)
Variable queryFn : option C -> W -> Completion Page * W.
Variable getNextPageParam : Page -> option C.

(** Modelled from the spec: the pagination controller is [useInfiniteQuery]
    of vue-query, which is not part of the sources.  It starts in [HasMore]
    with no cursor. *)
Definition initial : Sequence C Page := {| state := HasMore None; pages := [] |}.

(** Modelled from the spec: after a successful page, an empty or absent next
    cursor exhausts the sequence, any other cursor is kept for the next page. *)
Definition transition (nextCursor : option C) : State C :=
  if truthy nextCursor then HasMore nextCursor else Exhausted.

(** Modelled from the spec: fetching the next page asks the query function for
    the page at the current cursor; an exhausted sequence asks for nothing, and
    a failed fetch leaves the sequence where it was. *)
Definition fetchNextPage (s : Sequence C Page * W) : Sequence C Page * W :=
  let (sq, w) := s in
  match state sq with
  | Exhausted => (sq, w)
  | HasMore cursor =>
      match queryFn cursor w with
      | (Return page, w') =>
          ({| state := transition (getNextPageParam page);
              pages := pages sq ++ [page] |}, w')
      | (Throw _, w') => (sq, w')
      end
  end.

(** Modelled from the spec: restarting discards the accumulated cursor state
    and pages and begins again from no cursor. *)
Definition refetchFromStart (sq : Sequence C Page) : Sequence C Page := initial.

End Controller.

End Pagination.

(** ** The legacy composable: [src/composables/queries/usePoolsQuery.ts] *)

Module Legacy.

(** The SDK's filter operators, as the query builder uses them. *)
Module Op.
Inductive t :=
| Equals (l : list string)
| Contains (l : list string)
| In (l : list string)
| NotIn (l : list string)
| GreaterThan (x : Q).

(** The list an operator was applied to. *)
Definition operand (o : t) : list string :=
  match o with
  | Equals l | Contains l | In l | NotIn l => l
  | GreaterThan _ => []
  end.
End Op.

Record FilterOptions := {
  poolIds : option (list string);
  poolAddresses : option (list string);
  isExactTokensList : option bool;
  pageSize : option Z
}.

Record Where := {
  where_tokensList : Op.t;
  where_poolType : Op.t;
  where_totalShares : Op.t;
  where_id : Op.t;
  where_address : option Op.t
}.

Record GraphQLArgs := {
  chainId : Z;
  first : option Z;
  orderBy : string;
  orderDirection : string;
  where_ : Where;
  skip : option string
}.

(** The attribute selection is one fixed object literal. *)
Inductive GraphQLAttrs := queryAttrs.

Record GraphQLQuery := { args : GraphQLArgs; attrs : GraphQLAttrs }.

Record PoolsQueryResponse := {
  resp_pools : list Pool;
  resp_skip : option string;
  resp_enabled : option bool
}.

Definition set_skip (a : GraphQLArgs) (s : string) : GraphQLArgs :=
  {| chainId := chainId a; first := first a; orderBy := orderBy a;
     orderDirection := orderDirection a; where_ := where_ a; skip := Some s |}.

Definition set_where (a : GraphQLArgs) (w : Where) : GraphQLArgs :=
  {| chainId := chainId a; first := first a; orderBy := orderBy a;
     orderDirection := orderDirection a; where_ := w; skip := skip a |}.

Definition set_where_id (a : GraphQLArgs) (o : Op.t) : GraphQLArgs :=
  let w := where_ a in
  set_where a
    {| where_tokensList := where_tokensList w; where_poolType := where_poolType w;
       where_totalShares := where_totalShares w; where_id := o;
       where_address := where_address w |}.

Definition set_where_address (a : GraphQLArgs) (o : Op.t) : GraphQLArgs :=
  let w := where_ a in
  set_where a
    {| where_tokensList := where_tokensList w; where_poolType := where_poolType w;
       where_totalShares := where_totalShares w; where_id := where_id w;
       where_address := Some o |}.

Definition delete_first (a : GraphQLArgs) : GraphQLArgs :=
  {| chainId := chainId a; first := None; orderBy := orderBy a;
     orderDirection := orderDirection a; where_ := where_ a; skip := skip a |}.

(** [filterOptions?.f?.value.length] *)
Definition ref_length (filterOptions : option FilterOptions)
    (f : FilterOptions -> option (list string)) : option nat :=
  match filterOptions with
  | Some fo => match f fo with Some l => Some (List.length l) | None => None end
  | None => None
  end.

(** [filterOptions.f.value], read only after [ref_length] was truthy. *)
Definition ref_value (filterOptions : option FilterOptions)
    (f : FilterOptions -> option (list string)) : list string :=
  match filterOptions with
  | Some fo => nullish (f fo) []
  | None => []
  end.

(** *** Repositories *)

(** What one call of a repository's [fetch] leaves behind: the awaited
    outcome, and the value its [skip] getter returns afterwards.  A source
    that does not answer within the coordinator's time budget counts as
    having thrown. *)
Record Fetched := {
  outcome : Completion (list Pool);
  skip_after : option string
}.

Definition Repository := GraphQLQuery -> Fetched.

(** A repository whose [fetch] rejects the query. *)
Definition fails (query : GraphQLQuery) (r : Repository) : Prop :=
  exists e, outcome (r query) = Throw e.

Record PoolsFallbackRepository := {
  providers : list Repository;
  timeout : Z
}.

(** One traversal of the chain: the response, the provider the coordinator
    ended on, and the positions it called, in calling order. *)
Record FallbackRun := {
  response : Completion (list Pool);
  currentProvider : option Fetched;
  attempted : list nat
}.

Definition AllSourcesFailed : Error := mkError "AllSourcesFailed".

(** Modelled from the spec: [PoolsFallbackRepository.fetch] belongs to the
    SDK, not to the sources.  It calls the providers strictly in order from
    position [idx]; the first one that returns is the response and becomes the
    current provider; a provider that throws hands over to the next; when none
    is left the aggregate failure is raised. *)
Fixpoint fallbackQuery (ps : list Repository) (idx : nat) (query : GraphQLQuery)
    : FallbackRun :=
  match ps with
  | [] => {| response := Throw AllSourcesFailed;
             currentProvider := None;
             attempted := [] |}
  | p :: rest =>
      let r := p query in
      match outcome r with
      | Return pools =>
          {| response := Return pools;
             currentProvider := Some r;
             attempted := [idx] |}
      | Throw _ =>
          let run := fallbackQuery rest (S idx) query in
          {| response := response run;
             currentProvider := currentProvider run;
             attempted := idx :: attempted run |}
      end
  end.

Definition fetch (repository : PoolsFallbackRepository) (query : GraphQLQuery)
    : FallbackRun :=
  fallbackQuery (providers repository) 0 query.

(** [poolsRepository.currentProvider?.skip
       ? poolsRepository.currentProvider.skip.toString() : undefined] *)
Definition exposed_skip (run : FallbackRun) : option string :=
  let skip := match currentProvider run with
              | Some r => skip_after r
              | None => None
              end in
  if truthy skip then skip else None.

Section Composable.
(** [configService.network.chainId], [POOLS.ExcludedPoolTypes] and
    [POOLS.BlockList] come from the configuration. *)
Variable network_chainId : Z.
Variable ExcludedPoolTypes : list string.
Variable BlockList : list string.

(** The composable's arguments. *)
Variable tokenList : list string.
Variable filterOptions : option FilterOptions.

(** The two SDK repositories, and the decorator with what it is given. *)
Variable balancerApiRepository : Repository.
Variable subgraphRepository : Repository.
Variables Gauge Prices Currency TokenMeta : Type.
Variable subgraphGauges : option (list Gauge).
Variable prices : Prices.
Variable currency : Currency.
Variable tokenMeta : TokenMeta.
Variable decorate :
  list Pool -> list Gauge -> Prices -> Currency -> TokenMeta -> Completion (list Pool).

Definition initializeDecoratedAPIRepository : Repository :=
  fun query =>
    {| outcome := outcome (balancerApiRepository query);
       skip_after := skip_after (balancerApiRepository query) |}.

Definition initializeDecoratedSubgraphRepository : Repository :=
  fun query =>
    {| outcome :=
         await pools <- outcome (subgraphRepository query) ;;
         await decoratedPools <-
           decorate pools (nullish subgraphGauges []) prices currency tokenMeta ;;
         Return decoratedPools;
       skip_after := skip_after (subgraphRepository query) |}.

Definition initializePoolsRepository : PoolsFallbackRepository :=
  let balancerApiRepository := initializeDecoratedAPIRepository in
  let subgraphRepository := initializeDecoratedSubgraphRepository in
  {| providers := [balancerApiRepository; subgraphRepository];
     timeout := 30 * 1000 |}.

Definition getQueryArgs (pageParam : option string) : GraphQLArgs :=
  let pageParam := nullish pageParam EmptyString in
  let tokensListFilterOperation :=
    if truthy (match filterOptions with
               | Some fo => isExactTokensList fo
               | None => None
               end)
    then Op.Equals else Op.Contains in
  let tokenListFormatted := map toLowerCase tokenList in
  let queryArgs :=
    {| chainId := network_chainId;
       first := Some 10%Z;
       orderBy := "totalLiquidity"%string;
       orderDirection := "desc"%string;
       where_ :=
         {| where_tokensList := tokensListFilterOperation tokenListFormatted;
            where_poolType := Op.NotIn ExcludedPoolTypes;
            where_totalShares := Op.GreaterThan (1 # 100);
            where_id := Op.NotIn BlockList;
            where_address := None |};
       skip := None |} in
  let queryArgs :=
    if truthy pageParam && (0 <? String.length pageParam)%nat
    then set_skip queryArgs pageParam else queryArgs in
  let queryArgs :=
    if truthy (ref_length filterOptions poolIds)
    then set_where_id queryArgs (Op.In (ref_value filterOptions poolIds))
    else queryArgs in
  let queryArgs :=
    if truthy (ref_length filterOptions poolAddresses)
    then set_where_address queryArgs (Op.In (ref_value filterOptions poolAddresses))
    else queryArgs in
  let queryArgs :=
    if (0 <? List.length tokenList)%nat then delete_first queryArgs else queryArgs in
  queryArgs.

Definition queryFn (pageParam : option string) : Completion PoolsQueryResponse :=
  let queryArgs := getQueryArgs pageParam in
  let poolsRepository := initializePoolsRepository in
  let run := fetch poolsRepository {| args := queryArgs; attrs := queryAttrs |} in
  await pools <- response run ;;
  let skip := exposed_skip run in
  Return {| resp_pools := pools; resp_skip := skip; resp_enabled := Some true |}.

Definition getNextPageParam (lastPage : PoolsQueryResponse) : option string :=
  resp_skip lastPage.

(** [useInfiniteQuery(queryKey, queryFn, queryOptions)]: the query function
    keeps no state between pages. *)
Definition fetchNextPage :=
  Pagination.fetchNextPage (fun cursor (w : unit) => (queryFn cursor, w))
    getNextPageParam.

End Composable.

End Legacy.

(** ** The current composable (the later [usePoolsQuery]) *)

Module Current.

(** The members of the generated API enums that the composable names. *)
Inductive GqlPoolOrderBy := Apr | Volume24h | TotalLiquidity.
Inductive GqlPoolOrderDirection := Asc | Desc.

(** [PoolFilterOptions], with the fields the composable reads.  Pool types,
    API pool types and API chains are string enums. *)
Record PoolFilterOptions := {
  tokens : option (list string);
  poolIds : option (list string);
  poolTypes : option (list string);
  sortField : option string;
  filter_first : option Z;
  pageSize : option Z
}.

Record PoolsRepositoryFetchOptions := {
  opt_first : option Z;
  opt_skip : option Z
}.

Record ApiWhere := {
  chainIn : list string;
  tokensIn : list string;
  poolTypeIn : list string;
  idNotIn : list string;
  idIn : option (list string)
}.

Record ApiArgs := {
  orderBy : GqlPoolOrderBy;
  orderDirection : GqlPoolOrderDirection;
  where_ : option ApiWhere;
  first : option Z;
  skip : option Z
}.

Record PoolsQueryResponse := {
  resp_pools : list Pool;
  resp_skip : option Z
}.

(** What the query function reads and writes outside its arguments: the
    value of [poolsStoreService.pools], and the calls made to [injectTokens]. *)
Record World := {
  poolsStore : option (list Pool);
  injected : list (list string)
}.

(** Modelled from the spec: [poolsStoreService.setPools] belongs to
    services/pool/pools-store.service, which is not part of the sources.  It
    replaces the retained record set. *)
Definition setPools (pools : list Pool) (w : World) : World :=
  {| poolsStore := Some pools; injected := injected w |}.

(** Modelled from the spec: [poolsStoreService.addPools], from the same
    missing service.  Successive pages are appended to the retained set. *)
Definition addPools (pools : list Pool) (w : World) : World :=
  {| poolsStore := Some (nullish (poolsStore w) [] ++ pools);
     injected := injected w |}.

(** [injectTokens] belongs to the tokens provider; the model records the
    call and what it was given. *)
Definition injectTokens (tokens : list string) (w : World) : World :=
  {| poolsStore := poolsStore w; injected := injected w ++ [tokens] |}.

Definition set_poolTypeIn (a : ApiArgs) (l : list string) : ApiArgs :=
  {| orderBy := orderBy a; orderDirection := orderDirection a;
     where_ :=
       match where_ a with
       | Some w => Some {| chainIn := chainIn w; tokensIn := tokensIn w;
                           poolTypeIn := l; idNotIn := idNotIn w; idIn := idIn w |}
       | None => None
       end;
     first := first a; skip := skip a |}.

Definition set_idIn (a : ApiArgs) (l : option (list string)) : ApiArgs :=
  {| orderBy := orderBy a; orderDirection := orderDirection a;
     where_ :=
       match where_ a with
       | Some w => Some {| chainIn := chainIn w; tokensIn := tokensIn w;
                           poolTypeIn := poolTypeIn w; idNotIn := idNotIn w; idIn := l |}
       | None => None
       end;
     first := first a; skip := skip a |}.

Definition set_first (a : ApiArgs) (n : Z) : ApiArgs :=
  {| orderBy := orderBy a; orderDirection := orderDirection a;
     where_ := where_ a; first := Some n; skip := skip a |}.

Definition set_skip (a : ApiArgs) (n : Z) : ApiArgs :=
  {| orderBy := orderBy a; orderDirection := orderDirection a;
     where_ := where_ a; first := first a; skip := Some n |}.

Definition has_where (a : ApiArgs) : bool :=
  match where_ a with Some _ => true | None => false end.

Definition convertSortFieldToOrderBy (sortField : option string) : GqlPoolOrderBy :=
  match sortField with
  | Some f =>
      if (f =? "apr")%string then Apr
      else if (f =? "volume")%string then Volume24h
      else TotalLiquidity
  | None => TotalLiquidity
  end.

Section Composable.
(** Configuration and helpers that live outside the sources. *)
Variable network_chainId : Z.
Variable IncludedPoolTypes : list string.
Variable BlockList : list string.
Variable PerPage : Z.
Variable mapNetworkToApiChain : Z -> string.
Variable mapPoolTypeToApiType : string -> string.
Variable tokenTreeLeafs : list PoolToken -> list string.
Variable isBalancerApiDefined : bool.

(** [balancerAPIService.pools.get] *)
Variable pools_get : ApiArgs -> Completion (list Pool).

(** [filterOptions.value] *)
Variable filterOptions : PoolFilterOptions.

Definition getQueryArgs (options : PoolsRepositoryFetchOptions) : ApiArgs :=
  let poolIds_length := option_map (@List.length string) (poolIds filterOptions) in
  let poolTypes_length := option_map (@List.length string) (poolTypes filterOptions) in
  let hasPoolIdFilters :=
    truthy poolIds_length
    && match poolIds_length with Some n => (0 <? n)%nat | None => false end in
  let hasPoolTypeFilters := truthy poolTypes_length in
  let tokenListFormatted :=
    or_else (option_map (map toLowerCase) (tokens filterOptions)) [] in
  let orderBy := convertSortFieldToOrderBy (sortField filterOptions) in
  let queryArgs :=
    {| orderBy := orderBy;
       orderDirection := Desc;
       where_ :=
         Some {| chainIn := [mapNetworkToApiChain network_chainId];
                 tokensIn := tokenListFormatted;
                 poolTypeIn := map mapPoolTypeToApiType IncludedPoolTypes;
                 idNotIn := BlockList;
                 idIn := None |};
       first := None;
       skip := None |} in
  let queryArgs :=
    if has_where queryArgs && hasPoolTypeFilters && truthy poolTypes_length
    then set_poolTypeIn queryArgs
           (map mapPoolTypeToApiType (nullish (poolTypes filterOptions) []))
    else queryArgs in
  let queryArgs :=
    if has_where queryArgs && hasPoolIdFilters
    then set_idIn queryArgs (poolIds filterOptions)
    else queryArgs in
  let queryArgs :=
    if truthy (opt_first options)
    then set_first queryArgs
           (or_else (filter_first filterOptions) (nullish (opt_first options) 0%Z))
    else queryArgs in
  let queryArgs :=
    if truthy (opt_skip options)
    then set_skip queryArgs (nullish (opt_skip options) 0%Z)
    else queryArgs in
  queryArgs.

(** [initializePoolsRepository().fetch] *)
Definition fetch (options : PoolsRepositoryFetchOptions) (w : World)
    : Completion (list Pool) * World :=
  match pools_get (getQueryArgs options) with
  | Return pools =>
      let tokens :=
        List.concat (map (fun pool =>
                       tokensList pool ++ tokenTreeLeafs (pool_tokens pool)
                       ++ [address pool]) pools) in
      (Return pools, injectTokens tokens w)
  | Throw e => (Throw e, w)
  end.

Definition getFetchOptions (pageParam : option Z) : PoolsRepositoryFetchOptions :=
  let pageParam := nullish pageParam 0%Z in
  let fetchArgs := {| opt_first := None; opt_skip := None |} in
  let fetchArgs :=
    {| opt_first := Some (or_else (pageSize filterOptions) PerPage);
       opt_skip := opt_skip fetchArgs |} in
  let fetchArgs :=
    if truthy pageParam && (0 <? pageParam)%Z
    then {| opt_first := opt_first fetchArgs; opt_skip := Some pageParam |}
    else fetchArgs in
  fetchArgs.

Definition customSort (pools : list Pool) : list Pool :=
  let poolsSortField := or_else (sortField filterOptions) "totalLiquidity"%string in
  if (poolsSortField =? "totalLiquidity")%string then pools
  else if (poolsSortField =? "apr")%string then
    JS.sort (fun a b =>
               let aprA := nullish (match apr a with Some r => apr_max r | None => None end) 0 in
               let aprB := nullish (match apr b with Some r => apr_max r | None => None end) 0 in
               aprB - aprA) pools
  else if (poolsSortField =? "volume")%string then
    JS.sort (fun a b =>
               let volumeA := bnum (nullish (totalSwapVolume a) 0) in
               let volumeB := bnum (nullish (totalSwapVolume b) 0) in
               toNumber (BigNumber_minus volumeB volumeA)) pools
  else pools.

(** The keys the two comparison functions read: [p?.apr?.max ?? 0] and
    [bnum(p?.totalSwapVolume ?? 0)]. *)
Definition aprMax (p : Pool) : Q :=
  nullish (match apr p with Some r => apr_max r | None => None end) 0.


(** The value of a pool's [totalSwapVolume] field, 0 when the field is
    absent. *)
Definition totalSwapVolumeOf (p : Pool) : Q :=
  match totalSwapVolume p with
  | Some v => v
  | None => 0
  end.

(** The callback of [watch(filterOptions, ..., { deep: true })].  The
    repository it rebuilds holds no state of its own. *)
Definition watch_filterOptions (w : World) : World :=
  setPools [] w.

Definition queryFn (pageParam : option Z) (w : World)
    : Completion PoolsQueryResponse * World :=
  let fetchOptions := getFetchOptions pageParam in
  let skip :=
    JS.add (or_else (opt_first fetchOptions) 0%Z)
      (or_else (opt_skip fetchOptions) 0%Z) in
  match fetch fetchOptions w with
  | (Return pools, w) =>
      let pools := if negb isBalancerApiDefined then customSort pools else pools in
      let w := addPools pools w in
      (Return {| resp_pools := pools; resp_skip := Some skip |}, w)
  | (Throw e, w) =>
      let savedPools := poolsStore w in
      if truthy savedPools && (0 <? List.length (nullish savedPools []))%nat
      then (Return {| resp_pools := nullish savedPools []; resp_skip := Some skip |}, w)
      else (Throw e, w)
  end.

Definition getNextPageParam (lastPage : PoolsQueryResponse) : option Z :=
  Some (or_else (resp_skip lastPage) 0%Z).

(** A filter change: the watcher's callback runs, and the query key changes
    with the filter, so the sequence starts over. *)
Definition restart (s : Pagination.Sequence Z PoolsQueryResponse * World)
    : Pagination.Sequence Z PoolsQueryResponse * World :=
  (Pagination.refetchFromStart (fst s), watch_filterOptions (snd s)).

Definition fetchNextPage :=
  Pagination.fetchNextPage queryFn getNextPageParam.

End Composable.

End Current.

(** ** Sample data *)

Module Sample.

Definition pool (name : string) (volume : Q) (aprMax : Q) : Pool :=
  {| id := name; address := name; poolType := "Weighted";
     tokensList := []; pool_tokens := []; totalLiquidity := "0";
     totalSwapVolume := Some volume;
     apr := Some {| apr_min := None; apr_max := Some aprMax |} |}.

Definition p1 : Pool := pool "p1" 10 3.
Definition p2 : Pool := pool "p2" (10 ^ 18) 1.
Definition p3 : Pool := pool "p3" 5 2.

(** A source that is down, still holding the cursor "7" of an earlier call. *)
Definition sourceA : Legacy.Repository :=
  fun _ => {| Legacy.outcome := Throw (mkError "down");
              Legacy.skip_after := Some "7"%string |}.

(** A source that returns two pools and stands at cursor "5". *)
Definition sourceB : Legacy.Repository :=
  fun _ => {| Legacy.outcome := Return [p1; p2];
              Legacy.skip_after := Some "5"%string |}.

(** A source that returns its last pool and has no further cursor. *)
Definition sourceEnd : Legacy.Repository :=
  fun _ => {| Legacy.outcome := Return [p3]; Legacy.skip_after := None |}.

Definition legacyQuery : Legacy.GraphQLQuery :=
  {| Legacy.args := Legacy.getQueryArgs 1 [] [] [] None None;
     Legacy.attrs := Legacy.queryAttrs |}.

Definition noFilter : Current.PoolFilterOptions :=
  {| Current.tokens := None; Current.poolIds := None; Current.poolTypes := None;
     Current.sortField := None; Current.filter_first := None;
     Current.pageSize := Some 10%Z |}.

Definition sortBy (field : string) : Current.PoolFilterOptions :=
  {| Current.tokens := None; Current.poolIds := None; Current.poolTypes := None;
     Current.sortField := Some field; Current.filter_first := None;
     Current.pageSize := None |}.

Definition backendDown : Current.ApiArgs -> Completion (list Pool) :=
  fun _ => Throw (mkError "down").

Definition backendUp : Current.ApiArgs -> Completion (list Pool) :=
  fun _ => Return [p1; p2].

Definition emptyWorld : Current.World :=
  {| Current.poolsStore := None; Current.injected := [] |}.

Definition cachedWorld : Current.World :=
  {| Current.poolsStore := Some [p3]; Current.injected := [] |}.

End Sample.

(** * Properties *)

(** ** Truthiness of numbers *)

Lemma truthy_nonzero (n : Z) : n <> 0%Z -> truthy (Some n) = true.
Proof.
  intros Hn. unfold truthy, truthy_optional, truthy_number.
  now apply negb_true_iff, Z.eqb_neq.
Qed.

Lemma truthy_positive (n : Z) : (0 < n)%Z -> truthy (Some n) = true.
Proof.
  intros Hn. apply truthy_nonzero. lia.
Qed.

Lemma or_else_nonzero (n d : Z) : n <> 0%Z -> or_else (Some n) d = n.
Proof.
  intros Hn. unfold or_else, truthy, truthy_number.
  destruct (Z.eqb_spec n 0); simpl; congruence.
Qed.

Lemma or_else_number_zero (v : Z) : or_else (Some v) 0%Z = v.
Proof.
  unfold or_else, truthy, truthy_number.
  destruct (Z.eqb_spec v 0); simpl; congruence.
Qed.

(** ** Rounding to a double *)

Lemma round_integer_exact (n : Z) :
  (Z.abs n <= 2 ^ 53)%Z -> round_integer n = n.
Proof.
  intros Hn. unfold round_integer.
  destruct (Z.leb_spec (Z.abs n) (2 ^ 53)); [reflexivity | lia].
Qed.

Lemma round_integer_positive (n : Z) : (0 < n)%Z -> (0 < round_integer n)%Z.
Proof.
  intros Hn. unfold round_integer.
  destruct (Z.leb_spec (Z.abs n) (2 ^ 53)) as [_|Hbig]; [exact Hn|].
  rewrite (Z.abs_eq n) in * by lia. rewrite (Z.sgn_pos n Hn), Z.mul_1_l.
  assert (H53 : (53 <= Z.log2 n)%Z).
  { apply Z.log2_le_pow2; lia. }
  set (e := (Z.log2 n - 52)%Z).
  assert (He : (0 < 2 ^ e)%Z) by (apply Z.pow_pos_nonneg; lia).
  assert (Hm : (0 < n / 2 ^ e)%Z).
  { apply Z.div_str_pos. split; [exact He|].
    transitivity (2 ^ Z.log2 n)%Z.
    - apply Z.pow_le_mono_r; lia.
    - apply Z.log2_spec. exact Hn. }
  destruct (_ || _); nia.
Qed.

Lemma round_half_even_nonneg (s : Q) : 0 <= s -> (0 <= round_half_even s)%Z.
Proof.
  intros Hs. unfold round_half_even.
  assert (Hf : (0 <= Qfloor s)%Z).
  { change 0%Z with (Qfloor 0). now apply Qfloor_resp_le. }
  destruct (Qcompare _ _); [destruct (Z.even _)| |]; lia.
Qed.

Lemma round_half_even_positive (s : Q) : 1 # 2 < s -> (0 < round_half_even s)%Z.
Proof.
  intros Hs. unfold round_half_even.
  assert (Hf : (0 <= Qfloor s)%Z).
  { change 0%Z with (Qfloor 0). apply Qfloor_resp_le. lra. }
  destruct (Z.eq_dec (Qfloor s) 0) as [H0|Hpos].
  - rewrite H0. replace (Qcompare (s - inject_Z 0) (1 # 2)) with Gt; [lia|].
    symmetry. apply Qgt_alt. unfold inject_Z. lra.
  - destruct (Qcompare _ _); [destruct (Z.even _)| |]; lia.
Qed.

Lemma floor_log2_le (a : Q) : 0 < a -> Qpower 2 (floor_log2 a) <= a.
Proof.
  intros Ha. unfold floor_log2.
  set (d := (Z.log2 (Qnum a) - Z.log2 (Z.pos (Qden a)))%Z).
  destruct (Qle_bool (Qpower 2 d) a) eqn:E; [now apply Qle_bool_iff|].
  destruct a as [p q]. unfold Qlt in Ha. cbn [Qnum Qden] in Ha, d.
  assert (Hp : (0 < p)%Z) by lia.
  pose proof (Z.log2_spec p Hp) as [Hlo _].
  pose proof (Z.log2_spec (Z.pos q) (Pos2Z.is_pos q)) as [_ Hhi].
  assert (Hlp : (0 <= Z.log2 p)%Z) by apply Z.log2_nonneg.
  assert (Hlq : (0 <= Z.log2 (Z.pos q))%Z) by apply Z.log2_nonneg.
  assert (E2 : Qpower 2 (d - 1)
               == inject_Z (2 ^ Z.log2 p) / inject_Z (2 ^ (Z.log2 (Z.pos q) + 1))).
  { assert (Hd : (d - 1 = Z.log2 p + - (Z.log2 (Z.pos q) + 1))%Z)
      by (unfold d; lia).
    rewrite Hd. rewrite Qpower_plus by discriminate.
    rewrite Qpower_opp.
    rewrite !Zpower_Qpower by lia. reflexivity. }
  rewrite E2.
  assert (Hden : 0 < inject_Z (2 ^ (Z.log2 (Z.pos q) + 1))).
  { change 0 with (inject_Z 0). rewrite <- Zlt_Qlt. apply Z.pow_pos_nonneg; lia. }
  apply Qle_shift_div_r; [exact Hden|].
  replace (Z.succ (Z.log2 (Z.pos q))) with (Z.log2 (Z.pos q) + 1)%Z in Hhi by lia.
  unfold Qle, Qmult, inject_Z. cbn [Qnum Qden].
  rewrite Z.mul_1_r, Pos.mul_1_r.
  set (P := (2 ^ Z.log2 p)%Z) in *.
  set (R := (2 ^ (Z.log2 (Z.pos q) + 1))%Z) in *.
  assert (0 < P)%Z by (apply Z.pow_pos_nonneg; lia).
  nia.
Qed.

Lemma Qpower_2_positive (e : Z) : 0 < Qpower 2 e.
Proof. apply Qpower_0_lt. reflexivity. Qed.

Lemma nearest_double_nonneg (a : Q) : 0 <= a -> 0 <= nearest_double a.
Proof.
  intros Ha. unfold nearest_double.
  set (e := Z.max (-1074) (floor_log2 a - 52)).
  pose proof (Qpower_2_positive e) as He.
  apply Qmult_le_0_compat; [|lra].
  change 0 with (inject_Z 0). rewrite <- Zle_Qle.
  apply round_half_even_nonneg. apply Qle_shift_div_l; [exact He|lra].
Qed.

Lemma nearest_double_positive (a : Q) :
  Qpower 2 (-1075) < a -> 0 < nearest_double a.
Proof.
  intros Ha. unfold nearest_double.
  set (e := Z.max (-1074) (floor_log2 a - 52)).
  pose proof (Qpower_2_positive e) as He.
  pose proof (Qpower_2_positive (-1075)) as Hmin.
  assert (Hpos : 0 < a) by lra.
  apply Qmult_lt_0_compat; [|exact He].
  change 0 with (inject_Z 0). rewrite <- Zlt_Qlt.
  apply round_half_even_positive. apply Qlt_shift_div_l; [exact He|].
  destruct (Z.max_spec (-1074) (floor_log2 a - 52)) as [[Hlt Hmax]|[Hge Hmax]];
    fold e in Hmax; rewrite Hmax.
  - pose proof (@floor_log2_le a Hpos) as Hfl.
    replace (floor_log2 a) with ((floor_log2 a - 52) + 52)%Z in Hfl by lia.
    rewrite Qpower_plus in Hfl by discriminate.
    pose proof (Qpower_2_positive (floor_log2 a - 52)) as Hp.
    assert (H52 : 1 < Qpower 2 52) by reflexivity.
    nra.
  - assert (E : Qpower 2 (-1075) == (1 # 2) * Qpower 2 (-1074)) by reflexivity.
    lra.
Qed.

Lemma toNumber_nonneg (x : Q) : 0 <= x -> 0 <= toNumber x.
Proof.
  intros Hx. unfold toNumber. destruct x as [[|p|p] q]; simpl.
  - lra.
  - now apply nearest_double_nonneg.
  - unfold Qle in Hx. simpl in Hx. lia.
Qed.

Lemma toNumber_nonpos (x : Q) : x <= 0 -> toNumber x <= 0.
Proof.
  intros Hx. unfold toNumber. destruct x as [[|p|p] q]; simpl.
  - lra.
  - unfold Qle in Hx. simpl in Hx. lia.
  - pose proof (@nearest_double_nonneg (- (Z.neg p # q))) as H.
    assert (0 <= - (Z.neg p # q)) by lra. specialize (H H0). lra.
Qed.

Lemma toNumber_positive (x : Q) : Qpower 2 (-1075) < x -> 0 < toNumber x.
Proof.
  intros Hx. pose proof (Qpower_2_positive (-1075)) as Hmin.
  unfold toNumber. destruct x as [[|p|p] q]; simpl.
  - assert (0 # q == 0) by reflexivity. lra.
  - now apply nearest_double_positive.
  - assert (Z.neg p # q < 0) by reflexivity. lra.
Qed.

Lemma toNumber_negative (x : Q) : x < - Qpower 2 (-1075) -> toNumber x < 0.
Proof.
  intros Hx. pose proof (Qpower_2_positive (-1075)) as Hmin.
  unfold toNumber. destruct x as [[|p|p] q]; simpl.
  - assert (0 # q == 0) by reflexivity. lra.
  - assert (0 < Z.pos p # q) by reflexivity. lra.
  - pose proof (@nearest_double_positive (- (Z.neg p # q))) as H.
    assert (Qpower 2 (-1075) < - (Z.neg p # q)) by lra. specialize (H H0). lra.
Qed.

Lemma add_exact (a b : Z) :
  (Z.abs (a + b) <= 2 ^ 53)%Z -> JS.add a b = (a + b)%Z.
Proof.
  intros Hsum. unfold JS.add. now apply round_integer_exact.
Qed.

(** ** Lower-casing *)

Lemma lower_ascii_not_upper (c : ascii) : is_upper (lower_ascii c) = false.
Proof.
  destruct c as [[] [] [] [] [] [] [] []]; reflexivity.
Qed.

Lemma toLowerCase_no_upper (s : string) : has_upper (toLowerCase s) = false.
Proof.
  induction s as [|c rest IH]; simpl; [reflexivity|].
  now rewrite lower_ascii_not_upper, IH.
Qed.

Lemma toLowerCase_length (s : string) :
  String.length (toLowerCase s) = String.length s.
Proof.
  induction s as [|c rest IH]; simpl; congruence.
Qed.

Lemma map_toLowerCase_nth (l : list string) (i : nat) :
  nth_error (map toLowerCase l) i = option_map toLowerCase (nth_error l i).
Proof.
  revert i; induction l as [|a l IH]; intros [|i]; simpl; auto.
Qed.

Lemma lower_ascii_form (c : ascii) :
  (if ((65 <=? nat_of_ascii c) && (nat_of_ascii c <=? 90))%nat
   then (nat_of_ascii (lower_ascii c) =? nat_of_ascii c + 32)%nat
   else Ascii.eqb (lower_ascii c) c) = true.
Proof.
  destruct c as [[] [] [] [] [] [] [] []]; reflexivity.
Qed.

Lemma toLowerCase_form (s : string) : is_lower_cased_form s (toLowerCase s) = true.
Proof.
  induction s as [|c rest IH]; [reflexivity|].
  cbn [toLowerCase is_lower_cased_form]. now rewrite lower_ascii_form, IH.
Qed.

Lemma map_toLowerCase_form (l : list string) :
  Forall2 (fun a lowered => is_lower_cased_form a lowered = true)
    l (map toLowerCase l).
Proof.
  induction l; simpl; constructor; auto using toLowerCase_form.
Qed.

(** The lower-cased form of a string is one string only. *)
Lemma lower_cased_form_unique (s l1 l2 : string) :
  is_lower_cased_form s l1 = true -> is_lower_cased_form s l2 = true -> l1 = l2.
Proof.
  revert l1 l2. induction s as [|c rest IH]; intros [|c1 r1] [|c2 r2];
    cbn [is_lower_cased_form]; try discriminate; [reflexivity|].
  intros H1 H2. apply andb_true_iff in H1, H2.
  destruct H1 as [Hc1 Hr1], H2 as [Hc2 Hr2]. f_equal.
  - destruct ((65 <=? nat_of_ascii c) && (nat_of_ascii c <=? 90))%nat.
    + apply Nat.eqb_eq in Hc1, Hc2.
      rewrite <- (ascii_nat_embedding c1), <- (ascii_nat_embedding c2).
      congruence.
    + apply Ascii.eqb_eq in Hc1, Hc2. congruence.
  - now apply IH.
Qed.

Lemma map_toLowerCase_no_upper (l : list string) :
  Forall (fun a => has_upper a = false) (map toLowerCase l).
Proof.
  induction l; simpl; constructor; auto using toLowerCase_no_upper.
Qed.

(** ** The query-argument builders *)

Section LegacyArgs.
Variables (network_chainId : Z) (ExcludedPoolTypes BlockList : list string).
Variables (tokenList : list string) (filterOptions : option Legacy.FilterOptions).

Let args := Legacy.getQueryArgs network_chainId ExcludedPoolTypes BlockList
              tokenList filterOptions.

Lemma legacy_first (pageParam : option string) :
  Legacy.first (args pageParam)
  = match tokenList with [] => Some 10%Z | _ :: _ => None end.
Proof.
  unfold args, Legacy.getQueryArgs.
  destruct tokenList; simpl;
    repeat match goal with |- context [if ?b then _ else _] => destruct b end;
    reflexivity.
Qed.

Lemma legacy_orderDirection (pageParam : option string) :
  Legacy.orderDirection (args pageParam) = "desc"%string.
Proof.
  unfold args, Legacy.getQueryArgs.
  repeat match goal with |- context [if ?b then _ else _] => destruct b end;
    reflexivity.
Qed.

Lemma legacy_where_tokensList (pageParam : option string) :
  Legacy.where_tokensList (Legacy.where_ (args pageParam))
  = (if truthy (match filterOptions with
                | Some fo => Legacy.isExactTokensList fo
                | None => None
                end)
     then Legacy.Op.Equals else Legacy.Op.Contains) (map toLowerCase tokenList).
Proof.
  unfold args, Legacy.getQueryArgs.
  repeat match goal with
         | |- context [if ?b then Legacy.set_skip _ _ else _] => destruct b
         | |- context [if ?b then Legacy.set_where_id _ _ else _] => destruct b
         | |- context [if ?b then Legacy.set_where_address _ _ else _] => destruct b
         | |- context [if ?b then Legacy.delete_first _ else _] => destruct b
         end; reflexivity.
Qed.

Lemma legacy_where_id (pageParam : option string) :
  Legacy.where_id (Legacy.where_ (args pageParam))
  = if truthy (Legacy.ref_length filterOptions Legacy.poolIds)
    then Legacy.Op.In (Legacy.ref_value filterOptions Legacy.poolIds)
    else Legacy.Op.NotIn BlockList.
Proof.
  unfold args, Legacy.getQueryArgs.
  destruct (truthy (Legacy.ref_length filterOptions Legacy.poolIds));
  repeat match goal with
         | |- context [if ?b then Legacy.set_skip _ _ else _] => destruct b
         | |- context [if ?b then Legacy.set_where_address _ _ else _] => destruct b
         | |- context [if ?b then Legacy.delete_first _ else _] => destruct b
         end; reflexivity.
Qed.

End LegacyArgs.

Section CurrentArgs.
Variables (network_chainId : Z) (IncludedPoolTypes BlockList : list string).
Variable PerPage : Z.
Variable mapNetworkToApiChain : Z -> string.
Variable mapPoolTypeToApiType : string -> string.
Variable filterOptions : Current.PoolFilterOptions.

Let getQueryArgs := Current.getQueryArgs network_chainId IncludedPoolTypes BlockList
                      mapNetworkToApiChain mapPoolTypeToApiType filterOptions.
Let getFetchOptions := Current.getFetchOptions PerPage filterOptions.

Ltac split_updates :=
  repeat match goal with
         | |- context [if ?b then Current.set_poolTypeIn _ _ else _] => destruct b
         | |- context [if ?b then Current.set_idIn _ _ else _] => destruct b
         | |- context [if ?b then Current.set_first _ _ else _] => destruct b
         | |- context [if ?b then Current.set_skip _ _ else _] => destruct b
         end.

Lemma current_orderDirection (options : Current.PoolsRepositoryFetchOptions) :
  Current.orderDirection (getQueryArgs options) = Current.Desc.
Proof.
  unfold getQueryArgs, Current.getQueryArgs. split_updates; reflexivity.
Qed.

Lemma current_first (options : Current.PoolsRepositoryFetchOptions) :
  Current.first (getQueryArgs options)
  = if truthy (Current.opt_first options)
    then Some (or_else (Current.filter_first filterOptions)
                 (nullish (Current.opt_first options) 0%Z))
    else None.
Proof.
  unfold getQueryArgs, Current.getQueryArgs.
  destruct (truthy (Current.opt_first options)); split_updates; reflexivity.
Qed.

Lemma current_opt_first (pageParam : option Z) :
  Current.opt_first (getFetchOptions pageParam)
  = Some (or_else (Current.pageSize filterOptions) PerPage).
Proof.
  unfold getFetchOptions, Current.getFetchOptions.
  destruct (truthy _ && _); reflexivity.
Qed.

Lemma current_opt_skip (pageParam : option Z) :
  Current.opt_skip (getFetchOptions pageParam)
  = if (0 <? nullish pageParam 0)%Z then Some (nullish pageParam 0%Z) else None.
Proof.
  unfold getFetchOptions, Current.getFetchOptions.
  destruct (nullish pageParam 0%Z) as [|p|p] eqn:E; reflexivity.
Qed.

Lemma current_where (options : Current.PoolsRepositoryFetchOptions) :
  Current.where_ (getQueryArgs options)
  = Some {| Current.chainIn := [mapNetworkToApiChain network_chainId];
            Current.tokensIn :=
              map toLowerCase (nullish (Current.tokens filterOptions) []);
            Current.poolTypeIn :=
              match Current.poolTypes filterOptions with
              | Some (t :: ts) => map mapPoolTypeToApiType (t :: ts)
              | _ => map mapPoolTypeToApiType IncludedPoolTypes
              end;
            Current.idNotIn := BlockList;
            Current.idIn :=
              match Current.poolIds filterOptions with
              | Some (i :: ids) => Some (i :: ids)
              | _ => None
              end |}.
Proof.
  unfold getQueryArgs, Current.getQueryArgs. clear getQueryArgs getFetchOptions PerPage.
  destruct filterOptions as [tk ids tys sf ff ps]; simpl.
  destruct tk as [tk|], ids as [[|i ids]|], tys as [[|t tys]|]; simpl;
    split_updates; reflexivity.
Qed.

End CurrentArgs.

(** C1, as amended.  With a non-empty token list the legacy builder leaves
    [first] out of the built arguments.  With an empty token list the legacy
    builder sends the fixed limit 10, whatever [pageSize] asks for, and the
    current builder, asked for a non-zero [pageSize], sends that page size as
    [first], unless [filterOptions.first] is set and non-zero, which then
    takes its place. *)
Theorem page_size_limit_of_built_args :
  forall (chainId : Z) (ExcludedPoolTypes BlockList : list string)
         (tokenList : list string) (legacyOptions : option Legacy.FilterOptions)
         (cursor : option string)
         (IncludedPoolTypes : list string) (PerPage : Z)
         (mapNetworkToApiChain : Z -> string) (mapPoolTypeToApiType : string -> string)
         (filterOptions : Current.PoolFilterOptions) (pageParam : option Z),
    (tokenList <> [] ->
     Legacy.first
       (Legacy.getQueryArgs chainId ExcludedPoolTypes BlockList tokenList
          legacyOptions cursor)
     = None)
    /\
    (tokenList = [] ->
     Legacy.first
       (Legacy.getQueryArgs chainId ExcludedPoolTypes BlockList tokenList
          legacyOptions cursor)
     = Some 10%Z)
    /\
    (forall requested : Z,
        nullish (Current.tokens filterOptions) [] = [] ->
        Current.pageSize filterOptions = Some requested ->
        requested <> 0%Z ->
        Current.first
          (Current.getQueryArgs chainId IncludedPoolTypes BlockList
             mapNetworkToApiChain mapPoolTypeToApiType filterOptions
             (Current.getFetchOptions PerPage filterOptions pageParam))
        = Some (or_else (Current.filter_first filterOptions) requested)).
Proof.
  intros. split; [|split].
  - intros Hne. rewrite legacy_first. destruct tokenList; congruence.
  - intros ->. apply legacy_first.
  - intros requested _ Hsize Hnz.
    rewrite current_first, current_opt_first, Hsize.
    rewrite (or_else_nonzero PerPage Hnz), (truthy_nonzero Hnz). reflexivity.
Qed.

Lemma page_size_limit_of_built_args_witness :
  Legacy.first (Legacy.getQueryArgs 1 [] [] ["0xAAA"%string] None None) = None
  /\ Legacy.first (Legacy.getQueryArgs 1 [] [] [] None None) = Some 10%Z
  /\ Current.first
       (Current.getQueryArgs 1 [] [] (fun _ => "MAINNET"%string) (fun t => t)
          Sample.noFilter (Current.getFetchOptions 25 Sample.noFilter None))
     = Some 10%Z.
Proof.
  destruct (@page_size_limit_of_built_args 1 [] [] ["0xAAA"%string] None None
              [] 25%Z (fun _ => "MAINNET"%string) (fun t => t) Sample.noFilter None)
    as (Htokens & _ & _).
  destruct (@page_size_limit_of_built_args 1 [] [] [] None None
              [] 25%Z (fun _ => "MAINNET"%string) (fun t => t) Sample.noFilter None)
    as (_ & Hlegacy & Hcurrent).
  split; [|split].
  - apply Htokens. discriminate.
  - apply Hlegacy. reflexivity.
  - apply (Hcurrent 10%Z); [reflexivity | reflexivity | discriminate].
Defined.

(** C1 fails as stated on both builders: with the token list ["0xAAA"] and
    page size 10 the current builder still sends [first = 10], and with no
    tokens and page size 25 the legacy builder sends [first = 10], not 25. *)
Lemma page_size_limit_counterexample :
  let filterOptions :=
    {| Current.tokens := Some ["0xAAA"%string]; Current.poolIds := None;
       Current.poolTypes := None; Current.sortField := None;
       Current.filter_first := None; Current.pageSize := Some 10%Z |} in
  let legacyOptions :=
    Some {| Legacy.poolIds := None; Legacy.poolAddresses := None;
            Legacy.isExactTokensList := None; Legacy.pageSize := Some 25%Z |} in
  Current.first
    (Current.getQueryArgs 1 [] [] (fun _ => "MAINNET"%string) (fun t => t)
       filterOptions (Current.getFetchOptions 10 filterOptions None))
  = Some 10%Z
  /\ Legacy.first (Legacy.getQueryArgs 1 [] [] [] legacyOptions None) = Some 10%Z
  /\ Legacy.first (Legacy.getQueryArgs 1 [] [] [] legacyOptions None) <> Some 25%Z.
Proof.
  cbv zeta. repeat split; try reflexivity. discriminate.
Qed.

(** C6, as amended.  With a non-empty pool-id allow-list, the legacy builder
    puts the allow-list alone on the [id] field, in place of the block-list
    exclusion; the current builder sends the allow-list as [idIn] and keeps
    the block-list as [idNotIn] beside it. *)
Theorem allow_list_in_built_args :
  forall (chainId : Z) (ExcludedPoolTypes BlockList : list string)
         (tokenList : list string) (legacyOptions : Legacy.FilterOptions)
         (cursor : option string)
         (IncludedPoolTypes : list string)
         (mapNetworkToApiChain : Z -> string) (mapPoolTypeToApiType : string -> string)
         (filterOptions : Current.PoolFilterOptions)
         (options : Current.PoolsRepositoryFetchOptions)
         (allowed : string) (others : list string),
    Legacy.poolIds legacyOptions = Some (allowed :: others) ->
    Current.poolIds filterOptions = Some (allowed :: others) ->
    Legacy.where_id
      (Legacy.where_
         (Legacy.getQueryArgs chainId ExcludedPoolTypes BlockList tokenList
            (Some legacyOptions) cursor))
    = Legacy.Op.In (allowed :: others)
    /\
    exists w,
      Current.where_
        (Current.getQueryArgs chainId IncludedPoolTypes BlockList
           mapNetworkToApiChain mapPoolTypeToApiType filterOptions options)
      = Some w
      /\ Current.idIn w = Some (allowed :: others)
      /\ Current.idNotIn w = BlockList.
Proof.
  intros * Hl Hc. split.
  - rewrite legacy_where_id. unfold Legacy.ref_length, Legacy.ref_value.
    rewrite Hl. reflexivity.
  - rewrite current_where, Hc. eexists. split; [reflexivity|]. split; reflexivity.
Qed.

Lemma allow_list_in_built_args_witness :
  let legacyOptions :=
    {| Legacy.poolIds := Some ["0x01"%string]; Legacy.poolAddresses := None;
       Legacy.isExactTokensList := None; Legacy.pageSize := None |} in
  let filterOptions :=
    {| Current.tokens := None; Current.poolIds := Some ["0x01"%string];
       Current.poolTypes := None; Current.sortField := None;
       Current.filter_first := None; Current.pageSize := None |} in
  Legacy.where_id
    (Legacy.where_
       (Legacy.getQueryArgs 1 [] ["0xbad"%string] [] (Some legacyOptions) None))
  = Legacy.Op.In ["0x01"%string]
  /\
  exists w,
    Current.where_
      (Current.getQueryArgs 1 [] ["0xbad"%string] (fun _ => "MAINNET"%string)
         (fun t => t) filterOptions
         {| Current.opt_first := Some 10%Z; Current.opt_skip := None |})
    = Some w
    /\ Current.idIn w = Some ["0x01"%string]
    /\ Current.idNotIn w = ["0xbad"%string].
Proof.
  cbv zeta.
  apply (@allow_list_in_built_args 1 [] ["0xbad"%string] [] _ None []
           (fun _ => "MAINNET"%string) (fun t => t) _ _ "0x01"%string []);
    reflexivity.
Defined.

(** C6 fails as stated on the current builder: with the allow-list ["0xbad"]
    and the block-list ["0xbad"], the built arguments carry both [idIn] and
    [idNotIn]; the exclusion is still in the arguments. *)
Lemma allow_list_counterexample :
  let filterOptions :=
    {| Current.tokens := None; Current.poolIds := Some ["0xbad"%string];
       Current.poolTypes := None; Current.sortField := None;
       Current.filter_first := None; Current.pageSize := None |} in
  Current.where_
    (Current.getQueryArgs 1 [] ["0xbad"%string] (fun _ => "MAINNET"%string)
       (fun t => t) filterOptions
       {| Current.opt_first := Some 10%Z; Current.opt_skip := None |})
  = Some {| Current.chainIn := ["MAINNET"%string];
            Current.tokensIn := [];
            Current.poolTypeIn := [];
            Current.idNotIn := ["0xbad"%string];
            Current.idIn := Some ["0xbad"%string] |}.
Proof.
  reflexivity.
Qed.

(** C8.  For every list of ASCII token addresses, in both builders the
    token filter of the built arguments holds, position by position, the
    lower-cased forms of the input addresses: as many addresses as the input,
    each of the length of its input address, with every letter [A] to [Z]
    replaced by its small letter and every other character kept. *)
Theorem token_filter_lower_cased :
  forall (chainId : Z) (ExcludedPoolTypes BlockList : list string)
         (tokenList : list string) (legacyOptions : option Legacy.FilterOptions)
         (cursor : option string)
         (IncludedPoolTypes : list string)
         (mapNetworkToApiChain : Z -> string) (mapPoolTypeToApiType : string -> string)
         (filterOptions : Current.PoolFilterOptions)
         (options : Current.PoolsRepositoryFetchOptions),
    (Forall (fun a => is_ascii a = true) tokenList ->
     Forall2 (fun a lowered => is_lower_cased_form a lowered = true)
       tokenList
       (Legacy.Op.operand
          (Legacy.where_tokensList
             (Legacy.where_
                (Legacy.getQueryArgs chainId ExcludedPoolTypes BlockList tokenList
                   legacyOptions cursor)))))
    /\
    (Forall (fun a => is_ascii a = true) (nullish (Current.tokens filterOptions) []) ->
     exists w,
       Current.where_
         (Current.getQueryArgs chainId IncludedPoolTypes BlockList
            mapNetworkToApiChain mapPoolTypeToApiType filterOptions options)
       = Some w
       /\ Forall2 (fun a lowered => is_lower_cased_form a lowered = true)
            (nullish (Current.tokens filterOptions) [])
            (Current.tokensIn w)).
Proof.
  intros. split.
  - intros _. rewrite legacy_where_tokensList.
    assert (E : forall f : list string -> Legacy.Op.t,
               f = Legacy.Op.Equals \/ f = Legacy.Op.Contains ->
               Legacy.Op.operand (f (map toLowerCase tokenList))
               = map toLowerCase tokenList)
      by (intros f [-> | ->]; reflexivity).
    rewrite E by (destruct (truthy _); auto).
    apply map_toLowerCase_form.
  - intros _. rewrite current_where. eexists. split; [reflexivity|]. simpl.
    apply map_toLowerCase_form.
Qed.

Lemma token_filter_lower_cased_witness :
  let tokens := ["0xAbC123"%string; "0xdeF"%string] in
  let filterOptions :=
    {| Current.tokens := Some tokens; Current.poolIds := None;
       Current.poolTypes := None; Current.sortField := None;
       Current.filter_first := None; Current.pageSize := None |} in
  Forall2 (fun a lowered => is_lower_cased_form a lowered = true) tokens
    (Legacy.Op.operand
       (Legacy.where_tokensList
          (Legacy.where_ (Legacy.getQueryArgs 1 [] [] tokens None None))))
  /\
  (exists w,
      Current.where_
        (Current.getQueryArgs 1 [] [] (fun _ => "MAINNET"%string) (fun t => t)
           filterOptions
           {| Current.opt_first := Some 10%Z; Current.opt_skip := None |})
      = Some w
      /\ Forall2 (fun a lowered => is_lower_cased_form a lowered = true) tokens
           (Current.tokensIn w))
  /\
  Legacy.Op.operand
    (Legacy.where_tokensList
       (Legacy.where_ (Legacy.getQueryArgs 1 [] [] tokens None None)))
  = ["0xabc123"%string; "0xdef"%string].
Proof.
  intros tokens filterOptions.
  destruct (@token_filter_lower_cased 1 [] [] tokens None None []
              (fun _ => "MAINNET"%string) (fun t => t) filterOptions
              {| Current.opt_first := Some 10%Z; Current.opt_skip := None |})
    as (Hlegacy & Hcurrent).
  split; [|split].
  - apply Hlegacy. repeat constructor.
  - apply Hcurrent. repeat constructor.
  - reflexivity.
Defined.

(** C10.  Both builders always ask for descending order: no filter, sort
    field, cursor or fetch option changes the direction, although the API's
    direction type also has [Asc]. *)
Theorem order_direction_always_desc :
  forall (chainId : Z) (ExcludedPoolTypes BlockList : list string)
         (tokenList : list string) (legacyOptions : option Legacy.FilterOptions)
         (cursor : option string)
         (IncludedPoolTypes : list string)
         (mapNetworkToApiChain : Z -> string) (mapPoolTypeToApiType : string -> string)
         (filterOptions : Current.PoolFilterOptions)
         (options : Current.PoolsRepositoryFetchOptions),
    Legacy.orderDirection
      (Legacy.getQueryArgs chainId ExcludedPoolTypes BlockList tokenList
         legacyOptions cursor)
    = "desc"%string
    /\
    Current.orderDirection
      (Current.getQueryArgs chainId IncludedPoolTypes BlockList
         mapNetworkToApiChain mapPoolTypeToApiType filterOptions options)
    = Current.Desc
    /\
    Current.orderDirection
      (Current.getQueryArgs chainId IncludedPoolTypes BlockList
         mapNetworkToApiChain mapPoolTypeToApiType filterOptions options)
    <> Current.Asc.
Proof.
  intros. split; [apply legacy_orderDirection|].
  rewrite current_orderDirection. split; [reflexivity | discriminate].
Qed.

(** ** The fallback chain *)

Lemma fallbackQuery_first_success
    (pre post : list Legacy.Repository) (p : Legacy.Repository)
    (query : Legacy.GraphQLQuery) (pools : list Pool) :
  Forall (Legacy.fails query) pre ->
  Legacy.outcome (p query) = Return pools ->
  forall idx,
    let run := Legacy.fallbackQuery (pre ++ p :: post) idx query in
    Legacy.response run = Return pools
    /\ Legacy.currentProvider run = Some (p query)
    /\ Legacy.attempted run = seq idx (S (List.length pre)).
Proof.
  intros Hpre Hp. induction Hpre as [|r pre [e He] _ IH]; intros idx; simpl.
  - rewrite Hp. simpl. auto.
  - rewrite He. simpl. destruct (IH (S idx)) as (-> & -> & ->). auto.
Qed.

Lemma fallbackQuery_all_fail
    (ps : list Legacy.Repository) (query : Legacy.GraphQLQuery) :
  Forall (Legacy.fails query) ps ->
  forall idx,
    let run := Legacy.fallbackQuery ps idx query in
    Legacy.response run = Throw Legacy.AllSourcesFailed
    /\ Legacy.currentProvider run = None
    /\ Legacy.attempted run = seq idx (List.length ps).
Proof.
  intros Hps. induction Hps as [|r ps [e He] _ IH]; intros idx; simpl.
  - auto.
  - rewrite He. simpl. destruct (IH (S idx)) as (-> & -> & ->). auto.
Qed.

Lemma exposed_skip_of_provider (run : Legacy.FallbackRun) (r : Legacy.Fetched) :
  Legacy.currentProvider run = Some r ->
  Legacy.exposed_skip run
  = match Legacy.skip_after r with
    | Some (String c s) => Some (String c s)
    | _ => None
    end.
Proof.
  unfold Legacy.exposed_skip. intros ->.
  destruct (Legacy.skip_after r) as [[|c s]|]; reflexivity.
Qed.

Section LegacyQuery.
Variables (network_chainId : Z) (ExcludedPoolTypes BlockList : list string).
Variables (tokenList : list string) (filterOptions : option Legacy.FilterOptions).
Variables (balancerApiRepository subgraphRepository : Legacy.Repository).
Variables Gauge Prices Currency TokenMeta : Type.
Variable subgraphGauges : option (list Gauge).
Variable prices : Prices.
Variable currency : Currency.
Variable tokenMeta : TokenMeta.
Variable decorate :
  list Pool -> list Gauge -> Prices -> Currency -> TokenMeta -> Completion (list Pool).

Let queryFn :=
  Legacy.queryFn network_chainId ExcludedPoolTypes BlockList tokenList filterOptions
    balancerApiRepository subgraphRepository subgraphGauges prices currency
    tokenMeta decorate.
Let poolsRepository :=
  Legacy.initializePoolsRepository balancerApiRepository subgraphRepository
    subgraphGauges prices currency tokenMeta decorate.
Let query (pageParam : option string) :=
  {| Legacy.args :=
       Legacy.getQueryArgs network_chainId ExcludedPoolTypes BlockList tokenList
         filterOptions pageParam;
     Legacy.attrs := Legacy.queryAttrs |}.

Lemma legacy_queryFn_run (pageParam : option string) :
  queryFn pageParam
  = let run := Legacy.fetch poolsRepository (query pageParam) in
    match Legacy.response run with
    | Return pools =>
        Return {| Legacy.resp_pools := pools;
                  Legacy.resp_skip := Legacy.exposed_skip run;
                  Legacy.resp_enabled := Some true |}
    | Throw e => Throw e
    end.
Proof. reflexivity. Qed.

(** A page the legacy query function returns never carries an empty string
    as its cursor: the cursor is a non-empty string or absent. *)
Lemma legacy_queryFn_skip (pageParam : option string)
    (page : Legacy.PoolsQueryResponse) :
  queryFn pageParam = Return page ->
  Legacy.resp_skip page <> Some EmptyString.
Proof.
  rewrite legacy_queryFn_run. cbv zeta.
  destruct (Legacy.response _); [|discriminate].
  intros [= <-]. simpl. unfold Legacy.exposed_skip.
  destruct (match Legacy.currentProvider _ with Some r => _ | None => None end)
    as [[|c s]|]; simpl; discriminate.
Qed.

End LegacyQuery.

(** C3.  For every chain in which the providers before [p] reject the query
    and [p] returns, the coordinator calls the providers in order up to [p]
    and no further, responds with the pools of [p], and the cursor exposed is
    the cursor of [p] (absent when that is the empty string or absent), never
    one of an earlier provider; a chain whose providers all reject the query
    raises the aggregate failure.  The query function of the composable runs
    this on the chain of the API repository and the decorated subgraph
    repository: its page carries the pools and cursor of the API repository
    when that returns, those of the subgraph repository when the API
    repository rejects and fetching and decorating succeed, and it throws the
    aggregate failure otherwise. *)
Theorem fallback_first_success :
  (forall (timeout : Z) (pre post : list Legacy.Repository) (p : Legacy.Repository)
          (query : Legacy.GraphQLQuery) (pools : list Pool),
      Forall (Legacy.fails query) pre ->
      Legacy.outcome (p query) = Return pools ->
      let run :=
        Legacy.fetch {| Legacy.providers := pre ++ p :: post;
                        Legacy.timeout := timeout |} query in
      Legacy.response run = Return pools
      /\ Legacy.attempted run = seq 0 (S (List.length pre))
      /\ Legacy.exposed_skip run
         = match Legacy.skip_after (p query) with
           | Some (String c s) => Some (String c s)
           | _ => None
           end)
  /\
  (forall (timeout : Z) (ps : list Legacy.Repository) (query : Legacy.GraphQLQuery),
      Forall (Legacy.fails query) ps ->
      let run :=
        Legacy.fetch {| Legacy.providers := ps; Legacy.timeout := timeout |} query in
      Legacy.response run = Throw Legacy.AllSourcesFailed
      /\ Legacy.attempted run = seq 0 (List.length ps))
  /\
  (forall (chainId : Z) (ExcludedPoolTypes BlockList tokenList : list string)
          (filterOptions : option Legacy.FilterOptions)
          (api subgraph : Legacy.Repository)
          (Gauge Prices Currency TokenMeta : Type)
          (gauges : option (list Gauge)) (prices : Prices) (currency : Currency)
          (tokenMeta : TokenMeta)
          (decorate : list Pool -> list Gauge -> Prices -> Currency -> TokenMeta ->
                      Completion (list Pool))
          (pageParam : option string),
      let query :=
        {| Legacy.args :=
             Legacy.getQueryArgs chainId ExcludedPoolTypes BlockList tokenList
               filterOptions pageParam;
           Legacy.attrs := Legacy.queryAttrs |} in
      let cursor_of (r : Legacy.Repository) :=
        match Legacy.skip_after (r query) with
        | Some (String c s) => Some (String c s)
        | _ => None
        end in
      let decorated :=
        match Legacy.outcome (subgraph query) with
        | Return raw => decorate raw (nullish gauges []) prices currency tokenMeta
        | Throw e => Throw e
        end in
      Legacy.queryFn chainId ExcludedPoolTypes BlockList tokenList filterOptions
        api subgraph gauges prices currency tokenMeta decorate pageParam
      = match Legacy.outcome (api query), decorated with
        | Return pools, _ =>
            Return {| Legacy.resp_pools := pools;
                      Legacy.resp_skip := cursor_of api;
                      Legacy.resp_enabled := Some true |}
        | Throw _, Return pools =>
            Return {| Legacy.resp_pools := pools;
                      Legacy.resp_skip := cursor_of subgraph;
                      Legacy.resp_enabled := Some true |}
        | Throw _, Throw _ => Throw Legacy.AllSourcesFailed
        end).
Proof.
  split; [|split].
  - intros timeout pre post p query pools Hpre Hp run.
    destruct (@fallbackQuery_first_success pre post p query pools Hpre Hp 0)
      as (Hr & Hc & Ha).
    fold run in Hr, Hc, Ha. repeat split; auto.
    now apply exposed_skip_of_provider.
  - intros timeout ps query Hps run.
    destruct (@fallbackQuery_all_fail ps query Hps 0) as (Hr & _ & Ha). auto.
  - intros. rewrite legacy_queryFn_run. cbv zeta.
    unfold Legacy.fetch, Legacy.initializePoolsRepository, Legacy.exposed_skip,
      Legacy.initializeDecoratedAPIRepository,
      Legacy.initializeDecoratedSubgraphRepository; simpl.
    fold query.
    destruct (Legacy.outcome (api query)) as [pools|e]; simpl.
    + subst cursor_of; simpl.
      destruct (Legacy.skip_after (api query)) as [[|c s]|]; reflexivity.
    + subst decorated.
      destruct (Legacy.outcome (subgraph query)) as [raw|e']; simpl; [|reflexivity].
      destruct (decorate raw _ prices currency tokenMeta) as [pools|e']; simpl;
        [|reflexivity].
      subst cursor_of; simpl.
      destruct (Legacy.skip_after (subgraph query)) as [[|c s]|]; reflexivity.
Qed.

Lemma fallback_first_success_witness :
  (let run :=
     Legacy.fetch {| Legacy.providers := [Sample.sourceA; Sample.sourceB];
                     Legacy.timeout := 30000 |} Sample.legacyQuery in
   Legacy.response run = Return [Sample.p1; Sample.p2]
   /\ Legacy.attempted run = [0; 1]%nat
   /\ Legacy.exposed_skip run = Some "5"%string)
  /\
  (let run :=
     Legacy.fetch {| Legacy.providers := [Sample.sourceA; Sample.sourceA];
                     Legacy.timeout := 30000 |} Sample.legacyQuery in
   Legacy.response run = Throw Legacy.AllSourcesFailed
   /\ Legacy.attempted run = [0; 1]%nat)
  /\
  Legacy.queryFn 1 [] [] [] None Sample.sourceA Sample.sourceB
    (Some [tt]) tt tt tt (fun pools _ _ _ _ => Return pools) None
  = Return {| Legacy.resp_pools := [Sample.p1; Sample.p2];
              Legacy.resp_skip := Some "5"%string;
              Legacy.resp_enabled := Some true |}.
Proof.
  destruct fallback_first_success as (Hfirst & Hall & Hquery).
  split; [|split].
  - apply (Hfirst 30000%Z [Sample.sourceA] [] Sample.sourceB Sample.legacyQuery
             [Sample.p1; Sample.p2]).
    + repeat constructor. eexists. reflexivity.
    + reflexivity.
  - apply (Hall 30000%Z [Sample.sourceA; Sample.sourceA] Sample.legacyQuery).
    repeat constructor; eexists; reflexivity.
  - rewrite Hquery. reflexivity.
Defined.

(** ** The paginated sequence *)

Section Sequence.
Context {C Page W : Type} `{Truthy C}.
Variable queryFn : option C -> W -> Completion Page * W.
Variable getNextPageParam : Page -> option C.

Lemma fetchNextPage_page (sq : Pagination.Sequence C Page) (w w' : W)
    (cursor : option C) (page : Page) :
  Pagination.state sq = Pagination.HasMore cursor ->
  queryFn cursor w = (Return page, w') ->
  Pagination.fetchNextPage queryFn getNextPageParam (sq, w)
  = ({| Pagination.state := Pagination.transition (getNextPageParam page);
        Pagination.pages := Pagination.pages sq ++ [page] |}, w').
Proof.
  intros Hs Hq. unfold Pagination.fetchNextPage. now rewrite Hs, Hq.
Qed.

Lemma fetchNextPage_exhausted (sq : Pagination.Sequence C Page) (w : W) :
  Pagination.state sq = Pagination.Exhausted ->
  Pagination.fetchNextPage queryFn getNextPageParam (sq, w) = (sq, w).
Proof.
  intros Hs. unfold Pagination.fetchNextPage. now rewrite Hs.
Qed.

End Sequence.

Lemma current_getNextPageParam (page : Current.PoolsQueryResponse) :
  Pagination.transition (Current.getNextPageParam page)
  = if truthy (Current.resp_skip page)
    then Pagination.HasMore (Current.resp_skip page)
    else Pagination.Exhausted.
Proof.
  unfold Pagination.transition, Current.getNextPageParam.
  destruct (Current.resp_skip page) as [[|n|n]|]; reflexivity.
Qed.

(** C4.  The sequence starts in [HasMore] with no cursor.  In both versions
    of the composable, a successful page fetch whose response carries an
    empty or absent cursor moves the sequence to [Exhausted], one whose
    response carries a non-empty cursor leaves it in [HasMore] with that
    cursor, and an exhausted sequence requests no further page. *)
Theorem pagination_two_states :
  forall (chainId : Z) (ExcludedPoolTypes BlockList tokenList : list string)
         (legacyOptions : option Legacy.FilterOptions)
         (api subgraph : Legacy.Repository)
         (Gauge Prices Currency TokenMeta : Type)
         (gauges : option (list Gauge)) (prices : Prices) (currency : Currency)
         (tokenMeta : TokenMeta)
         (decorate : list Pool -> list Gauge -> Prices -> Currency -> TokenMeta ->
                     Completion (list Pool))
         (IncludedPoolTypes : list string) (PerPage : Z)
         (mapNetworkToApiChain : Z -> string) (mapPoolTypeToApiType : string -> string)
         (tokenTreeLeafs : list PoolToken -> list string)
         (isBalancerApiDefined : bool)
         (pools_get : Current.ApiArgs -> Completion (list Pool))
         (filterOptions : Current.PoolFilterOptions),
    let legacyQueryFn :=
      Legacy.queryFn chainId ExcludedPoolTypes BlockList tokenList legacyOptions
        api subgraph gauges prices currency tokenMeta decorate in
    let legacyNext :=
      Legacy.fetchNextPage chainId ExcludedPoolTypes BlockList tokenList legacyOptions
        api subgraph gauges prices currency tokenMeta decorate in
    let currentQueryFn :=
      Current.queryFn chainId IncludedPoolTypes BlockList PerPage mapNetworkToApiChain
        mapPoolTypeToApiType tokenTreeLeafs isBalancerApiDefined pools_get
        filterOptions in
    let currentNext :=
      Current.fetchNextPage chainId IncludedPoolTypes BlockList PerPage
        mapNetworkToApiChain mapPoolTypeToApiType tokenTreeLeafs isBalancerApiDefined
        pools_get filterOptions in
    (Pagination.state (@Pagination.initial string Legacy.PoolsQueryResponse)
     = Pagination.HasMore None
     /\ Pagination.state (@Pagination.initial Z Current.PoolsQueryResponse)
        = Pagination.HasMore None)
    /\
    (forall sq cursor page,
        Pagination.state sq = Pagination.HasMore cursor ->
        legacyQueryFn cursor = Return page ->
        Pagination.state (fst (legacyNext (sq, tt)))
        = if truthy (Legacy.resp_skip page)
          then Pagination.HasMore (Legacy.resp_skip page)
          else Pagination.Exhausted)
    /\
    (forall sq w cursor page w',
        Pagination.state sq = Pagination.HasMore cursor ->
        currentQueryFn cursor w = (Return page, w') ->
        Pagination.state (fst (currentNext (sq, w)))
        = if truthy (Current.resp_skip page)
          then Pagination.HasMore (Current.resp_skip page)
          else Pagination.Exhausted)
    /\
    (forall sq, Pagination.state sq = Pagination.Exhausted -> legacyNext (sq, tt) = (sq, tt))
    /\
    (forall sq w, Pagination.state sq = Pagination.Exhausted -> currentNext (sq, w) = (sq, w)).
Proof.
  intros. repeat split.
  - intros sq cursor page Hs Hq. unfold legacyNext, Legacy.fetchNextPage.
    erewrite fetchNextPage_page; [|exact Hs|].
    2:{ fold legacyQueryFn. rewrite Hq. reflexivity. }
    reflexivity.
  - intros sq w cursor page w' Hs Hq. unfold currentNext, Current.fetchNextPage.
    erewrite fetchNextPage_page; [|exact Hs|exact Hq].
    simpl. apply current_getNextPageParam.
  - intros sq Hs. now apply fetchNextPage_exhausted.
  - intros sq w Hs. now apply fetchNextPage_exhausted.
Qed.

Lemma pagination_two_states_witness :
  Pagination.state
    (fst (Legacy.fetchNextPage 1 [] [] [] None Sample.sourceA Sample.sourceB
            (Some [tt]) tt tt tt (fun pools _ _ _ _ => Return pools)
            (Pagination.initial, tt)))
  = Pagination.HasMore (Some "5"%string)
  /\
  Pagination.state
    (fst (Legacy.fetchNextPage 1 [] [] [] None Sample.sourceEnd Sample.sourceB
            (Some [tt]) tt tt tt (fun pools _ _ _ _ => Return pools)
            ({| Pagination.state := Pagination.HasMore (Some "5"%string);
                Pagination.pages := [] |}, tt)))
  = Pagination.Exhausted
  /\
  Pagination.state
    (fst (Current.fetchNextPage 1 [] [] 10 (fun _ => "MAINNET"%string) (fun t => t)
            (fun _ => []) true Sample.backendUp Sample.noFilter
            (Pagination.initial, Sample.emptyWorld)))
  = Pagination.HasMore (Some 10%Z)
  /\
  Legacy.fetchNextPage 1 [] [] [] None Sample.sourceA Sample.sourceB
    (Some [tt]) tt tt tt (fun pools _ _ _ _ => Return pools)
    ({| Pagination.state := Pagination.Exhausted; Pagination.pages := [] |}, tt)
  = ({| Pagination.state := Pagination.Exhausted; Pagination.pages := [] |}, tt)
  /\
  Current.fetchNextPage 1 [] [] 10 (fun _ => "MAINNET"%string) (fun t => t)
    (fun _ => []) true Sample.backendUp Sample.noFilter
    ({| Pagination.state := Pagination.Exhausted; Pagination.pages := [] |},
     Sample.emptyWorld)
  = ({| Pagination.state := Pagination.Exhausted; Pagination.pages := [] |},
     Sample.emptyWorld).
Proof.
  pose proof
    (fun api =>
       @pagination_two_states 1 [] [] [] None api Sample.sourceB
         unit unit unit unit (Some [tt]) tt tt tt (fun pools _ _ _ _ => Return pools)
         [] 10%Z (fun _ => "MAINNET"%string) (fun t => t) (fun _ => []) true
         Sample.backendUp Sample.noFilter) as T.
  cbv zeta in T.
  split; [|split; [|split; [|split]]].
  - destruct (T Sample.sourceA) as (_ & Hl & _).
    now rewrite (Hl Pagination.initial None
                   {| Legacy.resp_pools := [Sample.p1; Sample.p2];
                      Legacy.resp_skip := Some "5"%string;
                      Legacy.resp_enabled := Some true |}).
  - destruct (T Sample.sourceEnd) as (_ & Hl & _).
    now rewrite (Hl {| Pagination.state := Pagination.HasMore (Some "5"%string);
                       Pagination.pages := [] |} (Some "5"%string)
                   {| Legacy.resp_pools := [Sample.p3];
                      Legacy.resp_skip := None;
                      Legacy.resp_enabled := Some true |}).
  - destruct (T Sample.sourceA) as (_ & _ & Hc & _).
    now erewrite (Hc Pagination.initial Sample.emptyWorld None
                    {| Current.resp_pools := [Sample.p1; Sample.p2];
                       Current.resp_skip := Some 10%Z |}).
  - destruct (T Sample.sourceA) as (_ & _ & _ & He & _). now apply He.
  - destruct (T Sample.sourceA) as (_ & _ & _ & _ & He). now apply He.
Defined.

(** ** The current query function *)


Section CurrentQuery.
Variables (network_chainId : Z) (IncludedPoolTypes BlockList : list string).
Variable PerPage : Z.
Variable mapNetworkToApiChain : Z -> string.
Variable mapPoolTypeToApiType : string -> string.
Variable tokenTreeLeafs : list PoolToken -> list string.
Variable isBalancerApiDefined : bool.
Variable pools_get : Current.ApiArgs -> Completion (list Pool).
Variable filterOptions : Current.PoolFilterOptions.

Let getQueryArgs := Current.getQueryArgs network_chainId IncludedPoolTypes BlockList
                      mapNetworkToApiChain mapPoolTypeToApiType filterOptions.
Let getFetchOptions := Current.getFetchOptions PerPage filterOptions.
Let queryFn :=
  Current.queryFn network_chainId IncludedPoolTypes BlockList PerPage
    mapNetworkToApiChain mapPoolTypeToApiType tokenTreeLeafs isBalancerApiDefined
    pools_get filterOptions.

(** The cursor a page is returned with: the page size actually used, added
    as a number to the offset that was asked for. *)
Lemma current_page_cursor (pageParam : option Z) :
  JS.add (or_else (Current.opt_first (getFetchOptions pageParam)) 0%Z)
    (or_else (Current.opt_skip (getFetchOptions pageParam)) 0%Z)
  = JS.add (or_else (Current.pageSize filterOptions) PerPage)
      (Z.max 0 (nullish pageParam 0%Z)).
Proof.
  unfold getFetchOptions. rewrite current_opt_first, current_opt_skip.
  rewrite or_else_number_zero. f_equal.
  destruct (Z.ltb_spec 0 (nullish pageParam 0%Z)) as [Hlt|Hge].
  - rewrite or_else_number_zero. lia.
  - simpl. lia.
Qed.

Lemma current_queryFn_failure (pageParam : option Z) (w : Current.World) (e : Error) :
  pools_get (getQueryArgs (getFetchOptions pageParam)) = Throw e ->
  queryFn pageParam w
  = match Current.poolsStore w with
    | Some (p :: ps) =>
        (Return {| Current.resp_pools := p :: ps;
                   Current.resp_skip :=
                     Some (JS.add (or_else (Current.pageSize filterOptions) PerPage)
                             (Z.max 0 (nullish pageParam 0%Z))) |}, w)
    | _ => (Throw e, w)
    end.
Proof.
  intros Hget. unfold queryFn, Current.queryFn, Current.fetch.
  fold getFetchOptions. fold getQueryArgs. rewrite Hget, current_page_cursor.
  destruct (Current.poolsStore w) as [[|p ps]|]; reflexivity.
Qed.

Lemma current_queryFn_success (pageParam : option Z) (w : Current.World)
    (pools : list Pool) :
  pools_get (getQueryArgs (getFetchOptions pageParam)) = Return pools ->
  exists w',
    queryFn pageParam w
    = (Return {| Current.resp_pools :=
                   if negb isBalancerApiDefined
                   then Current.customSort filterOptions pools else pools;
                 Current.resp_skip :=
                   Some (JS.add (or_else (Current.pageSize filterOptions) PerPage)
                           (Z.max 0 (nullish pageParam 0%Z))) |}, w')
    /\ Current.poolsStore w'
       = Some (nullish (Current.poolsStore w) []
               ++ if negb isBalancerApiDefined
                  then Current.customSort filterOptions pools else pools).
Proof.
  intros Hget. unfold queryFn, Current.queryFn, Current.fetch.
  fold getFetchOptions. fold getQueryArgs. rewrite Hget, current_page_cursor.
  eexists. split; reflexivity.
Qed.

(** With a positive page size in use, no page of the current query function
    carries an empty cursor: the sequence of the current composable does not
    reach [Exhausted] through its own pages. *)
Lemma current_cursor_never_empty (pageParam : option Z) (w w' : Current.World)
    (page : Current.PoolsQueryResponse) :
  (0 < or_else (Current.pageSize filterOptions) PerPage)%Z ->
  queryFn pageParam w = (Return page, w') ->
  truthy (Current.resp_skip page) = true.
Proof.
  intros Hpos Hq.
  destruct (pools_get (getQueryArgs (getFetchOptions pageParam))) as [pools|e] eqn:Hget.
  - destruct (current_queryFn_success pageParam w Hget) as (w'' & Hs & _).
    rewrite Hs in Hq. injection Hq as <- _. simpl.
    apply truthy_positive, round_integer_positive. lia.
  - rewrite (current_queryFn_failure pageParam w Hget) in Hq.
    destruct (Current.poolsStore w) as [[|p ps]|]; try discriminate.
    injection Hq as <- _. simpl.
    apply truthy_positive, round_integer_positive. lia.
Qed.

End CurrentQuery.

(** C2, as amended.  When the backend rejects the fetch and the pool store
    holds a non-empty set, the query function returns exactly that set and
    raises nothing, and leaves the store as it was; the cursor it returns
    with the set is not the offset that was asked for but the one a
    successful page would carry: for a page size in use and an offset that
    are integers up to 2^53, their sum as numbers, which is their exact sum
    when that too is at most 2^53.  When the store is empty or absent the
    backend's error is thrown on unchanged. *)
Theorem cache_fallback_on_failure :
  forall (chainId : Z) (IncludedPoolTypes BlockList : list string) (PerPage : Z)
         (mapNetworkToApiChain : Z -> string) (mapPoolTypeToApiType : string -> string)
         (tokenTreeLeafs : list PoolToken -> list string)
         (isBalancerApiDefined : bool)
         (pools_get : Current.ApiArgs -> Completion (list Pool))
         (filterOptions : Current.PoolFilterOptions)
         (pageParam : option Z) (w : Current.World) (e : Error),
    let size := or_else (Current.pageSize filterOptions) PerPage in
    let offset := Z.max 0 (nullish pageParam 0%Z) in
    let result :=
      Current.queryFn chainId IncludedPoolTypes BlockList PerPage mapNetworkToApiChain
        mapPoolTypeToApiType tokenTreeLeafs isBalancerApiDefined pools_get
        filterOptions pageParam w in
    pools_get
      (Current.getQueryArgs chainId IncludedPoolTypes BlockList mapNetworkToApiChain
         mapPoolTypeToApiType filterOptions
         (Current.getFetchOptions PerPage filterOptions pageParam))
    = Throw e ->
    match Current.poolsStore w with
    | Some (p :: ps) =>
        exists cursor,
          result
          = (Return {| Current.resp_pools := p :: ps;
                       Current.resp_skip := Some cursor |}, w)
          /\ (safe_integer size -> safe_integer offset ->
              cursor = JS.add size offset)
          /\ (safe_integer size -> safe_integer offset ->
              safe_integer (size + offset) ->
              cursor = (size + offset)%Z)
    | _ => result = (Throw e, w)
    end.
Proof.
  intros * Hget. subst result.
  rewrite (@current_queryFn_failure chainId IncludedPoolTypes BlockList PerPage
             mapNetworkToApiChain mapPoolTypeToApiType tokenTreeLeafs
             isBalancerApiDefined pools_get filterOptions pageParam w e Hget).
  destruct (Current.poolsStore w) as [[|p ps]|]; try reflexivity.
  eexists. split; [reflexivity|]. split.
  - reflexivity.
  - intros _ _ Hsum. now apply add_exact.
Qed.

Lemma cache_fallback_on_failure_witness :
  Current.queryFn 1 [] [] 10 (fun _ => "MAINNET"%string) (fun t => t) (fun _ => [])
    true Sample.backendDown Sample.noFilter (Some 20%Z) Sample.cachedWorld
  = (Return {| Current.resp_pools := [Sample.p3]; Current.resp_skip := Some 30%Z |},
     Sample.cachedWorld)
  /\
  Current.queryFn 1 [] [] 10 (fun _ => "MAINNET"%string) (fun t => t) (fun _ => [])
    true Sample.backendDown Sample.noFilter (Some 20%Z) Sample.emptyWorld
  = (Throw (mkError "down"), Sample.emptyWorld).
Proof.
  pose proof (@cache_fallback_on_failure 1 [] [] 10%Z (fun _ => "MAINNET"%string)
                (fun t => t) (fun _ => []) true Sample.backendDown Sample.noFilter
                (Some 20%Z) Sample.cachedWorld (mkError "down") eq_refl) as Hcached.
  pose proof (@cache_fallback_on_failure 1 [] [] 10%Z (fun _ => "MAINNET"%string)
                (fun t => t) (fun _ => []) true Sample.backendDown Sample.noFilter
                (Some 20%Z) Sample.emptyWorld (mkError "down") eq_refl) as Hempty.
  split; [|exact Hempty].
  hnf in Hcached. destruct Hcached as (cursor & Hresult & _ & Hexact).
  rewrite Hresult, Hexact; [reflexivity| | |]; unfold safe_integer; simpl; lia.
Defined.

(** C2 fails as stated in its cursor: asked for offset 20 with page size 10
    while the backend is down and one pool is cached, the query function
    returns the cached pool with cursor 30, not with the cursor 20 that was
    asked for. *)
Lemma cache_fallback_cursor_counterexample :
  exists page,
    Current.queryFn 1 [] [] 10 (fun _ => "MAINNET"%string) (fun t => t) (fun _ => [])
      true Sample.backendDown Sample.noFilter (Some 20%Z) Sample.cachedWorld
    = (Return page, Sample.cachedWorld)
    /\ Current.resp_pools page = [Sample.p3]
    /\ Current.resp_skip page = Some 30%Z
    /\ Current.resp_skip page <> Some 20%Z.
Proof.
  eexists. split; [reflexivity|]. simpl. repeat split. discriminate.
Qed.

(** C7.  After any number of fetch-next calls from any state, a filter change
    puts the sequence back in [HasMore] with no cursor and no pages and empties
    the pool store; a second restart changes nothing; and the first page
    fetched afterwards is asked for without a cursor and leaves in the store
    exactly its own pools, nothing of what was there before. *)
Theorem restart_resets_and_is_idempotent :
  forall (chainId : Z) (IncludedPoolTypes BlockList : list string) (PerPage : Z)
         (mapNetworkToApiChain : Z -> string) (mapPoolTypeToApiType : string -> string)
         (tokenTreeLeafs : list PoolToken -> list string)
         (isBalancerApiDefined : bool)
         (pools_get : Current.ApiArgs -> Completion (list Pool))
         (filterOptions : Current.PoolFilterOptions)
         (s : Pagination.Sequence Z Current.PoolsQueryResponse * Current.World)
         (n : nat),
    let queryFn :=
      Current.queryFn chainId IncludedPoolTypes BlockList PerPage mapNetworkToApiChain
        mapPoolTypeToApiType tokenTreeLeafs isBalancerApiDefined pools_get
        filterOptions in
    let fetchNextPage :=
      Current.fetchNextPage chainId IncludedPoolTypes BlockList PerPage
        mapNetworkToApiChain mapPoolTypeToApiType tokenTreeLeafs isBalancerApiDefined
        pools_get filterOptions in
    let r := Current.restart (Nat.iter n fetchNextPage s) in
    Pagination.state (fst r) = Pagination.HasMore None
    /\ Pagination.pages (fst r) = []
    /\ Current.poolsStore (snd r) = Some []
    /\ Current.restart r = r
    /\ forall page w',
         queryFn None (snd r) = (Return page, w') ->
         fetchNextPage r
         = ({| Pagination.state :=
                 Pagination.transition (Current.getNextPageParam page);
               Pagination.pages := [page] |}, w')
         /\ Current.poolsStore w' = Some (Current.resp_pools page).
Proof.
  intros. set (s' := Nat.iter n fetchNextPage s) in *.
  repeat split; try reflexivity.
  - unfold fetchNextPage, Current.fetchNextPage.
    destruct r as [sq w] eqn:Er.
    erewrite fetchNextPage_page with (cursor := None) (page := page) (w' := w').
    + subst r. injection Er as <- <-. reflexivity.
    + subst r. injection Er as <- <-. reflexivity.
    + subst r. injection Er as <- <-. exact H.
  - subst queryFn.
    destruct (pools_get
                (Current.getQueryArgs chainId IncludedPoolTypes BlockList
                   mapNetworkToApiChain mapPoolTypeToApiType filterOptions
                   (Current.getFetchOptions PerPage filterOptions None)))
      as [pools|e] eqn:Hget.
    + destruct (@current_queryFn_success chainId IncludedPoolTypes BlockList PerPage
                  mapNetworkToApiChain mapPoolTypeToApiType tokenTreeLeafs
                  isBalancerApiDefined pools_get filterOptions None (snd r) pools Hget)
        as (w'' & Hq & Hstore).
      rewrite Hq in H. injection H as <- <-. rewrite Hstore. reflexivity.
    + rewrite (@current_queryFn_failure chainId IncludedPoolTypes BlockList PerPage
                 mapNetworkToApiChain mapPoolTypeToApiType tokenTreeLeafs
                 isBalancerApiDefined pools_get filterOptions None (snd r) e Hget) in H.
      discriminate.
Qed.

Lemma restart_resets_and_is_idempotent_witness :
  let fetchNextPage :=
    Current.fetchNextPage 1 [] [] 10 (fun _ => "MAINNET"%string) (fun t => t)
      (fun _ => []) true Sample.backendUp Sample.noFilter in
  let r := Current.restart (Nat.iter 2 fetchNextPage (Pagination.initial, Sample.emptyWorld)) in
  Pagination.state (fst r) = Pagination.HasMore None
  /\ Pagination.pages (fst r) = []
  /\ Current.poolsStore (snd r) = Some []
  /\ Current.restart r = r
  /\ Current.poolsStore (snd (fetchNextPage r)) = Some [Sample.p1; Sample.p2].
Proof.
  intros fetchNextPage r.
  destruct (@restart_resets_and_is_idempotent 1 [] [] 10%Z (fun _ => "MAINNET"%string)
              (fun t => t) (fun _ => []) true Sample.backendUp Sample.noFilter
              (Pagination.initial, Sample.emptyWorld) 2%nat)
    as (Hstate & Hpages & Hstore & Hidem & Hfresh).
  split; [exact Hstate|]. split; [exact Hpages|]. split; [exact Hstore|].
  split; [exact Hidem|].
  destruct (Hfresh {| Current.resp_pools := [Sample.p1; Sample.p2];
                      Current.resp_skip := Some 10%Z |}
              (snd (fetchNextPage r)) eq_refl) as (Hnext & Hnew).
  exact Hnew.
Defined.

(** ** The client-side sort *)

Section SortFacts.
Context {A : Type}.
Variable compareFn : A -> A -> Q.


Lemma sort_insert_permutation (x : A) (l : list A) :
  Permutation (x :: l) (sort_insert compareFn x l).
Proof.
  induction l as [|y l IH]; simpl; [reflexivity|].
  destruct (Qle_bool (compareFn x y) 0); [reflexivity|].
  rewrite perm_swap. now constructor.
Qed.

Lemma sort_permutation (l : list A) : Permutation l (JS.sort compareFn l).
Proof.
  induction l as [|x l IH]; simpl; [constructor|].
  rewrite <- sort_insert_permutation. now constructor.
Qed.


Section Swap.
(** Where [compareFn] puts [a] after [b], it leaves [b] ahead of [a]. *)
Hypothesis compare_swap :
  forall a b, Qle_bool (compareFn a b) 0 = false -> Qle_bool (compareFn b a) 0 = true.




End Swap.

Section Keyed.
Variable key : A -> Q.

Section Ties.
(** [compareFn] puts [a] after [b] only when the key of [a] is the smaller. *)
Hypothesis compare_after :
  forall a b, Qle_bool (compareFn a b) 0 = false -> key a < key b.



End Ties.

Section Ordered.
(** On the elements that satisfy [P], [compareFn] decides by the key. *)
Variable P : A -> Prop.
Hypothesis compare_on :
  forall a b, P a -> P b ->
    (Qle_bool (compareFn a b) 0 = true <-> key b <= key a).

Lemma sort_insert_sorted_on (x : A) (l : list A) :
  P x -> Forall P l ->
  StronglySorted (descending_by key) l ->
  StronglySorted (descending_by key) (sort_insert compareFn x l).
Proof.
  intros Px Pl Hsorted. induction Hsorted as [|y l Hl IH Hy]; simpl.
  - repeat constructor.
  - inversion Pl as [|? ? Py Pl']; subst.
    destruct (Qle_bool (compareFn x y) 0) eqn:E.
    + apply (compare_on Px Py) in E.
      constructor; [now constructor|]. constructor; [exact E|].
      eapply Forall_impl; [|exact Hy]. unfold descending_by in *. intros; lra.
    + assert (Hxy : key x <= key y).
      { destruct (Qlt_le_dec (key x) (key y)) as [Hlt|Hle]; [lra|].
        apply (compare_on Px Py) in Hle. congruence. }
      constructor; [now apply IH|].
      eapply Permutation_Forall; [apply sort_insert_permutation|].
      constructor; assumption.
Qed.

Lemma sort_sorted_on (l : list A) :
  Forall P l -> StronglySorted (descending_by key) (JS.sort compareFn l).
Proof.
  induction 1 as [|x l Px Pl IH]; simpl; [constructor|].
  apply sort_insert_sorted_on; [exact Px| |exact IH].
  eapply Permutation_Forall; [apply sort_permutation|exact Pl].
Qed.

End Ordered.

End Keyed.

End SortFacts.

(** The comparison function of the sort by [apr]. *)
Lemma apr_compare (a b : Pool) :
  Qle_bool (Current.aprMax b - Current.aprMax a) 0 = true
  <-> Current.aprMax b <= Current.aprMax a.
Proof.
  rewrite Qle_bool_iff. split; intros; lra.
Qed.



Lemma volume_compare_distinguishable (va vb : Q) :
  va == vb \/ half_least_double < Qabs (va - vb) ->
  (Qle_bool (toNumber (BigNumber_minus (bnum vb) (bnum va))) 0 = true
   <-> vb <= va).
Proof.
  intros Hd. split.
  - intros E. destruct (Qlt_le_dec va vb) as [Hlt|Hle]; [|exact Hle].
    destruct Hd as [Heq|Hfar]; [lra|].
    rewrite Qabs_neg in Hfar by lra.
    assert (Hp : 0 < toNumber (BigNumber_minus (bnum vb) (bnum va))).
    { apply toNumber_positive. unfold BigNumber_minus, bnum.
      unfold half_least_double in Hfar. lra. }
    apply Qle_bool_iff in E. lra.
  - intros Hle. apply Qle_bool_iff, toNumber_nonpos.
    unfold BigNumber_minus, bnum. lra.
Qed.

(** Volumes written with a bounded number of decimal places are
    distinguishable: so are all the multiples of one unit that is more than
    half the least positive double, such as 10^-18 or 10^-323. *)
Lemma multiples_distinguishable {A : Type} (key : A -> Q) (unit : Q) (l : list A) :
  half_least_double < unit ->
  (forall a, In a l -> exists n : Z, key a == inject_Z n * unit) ->
  distinguishable key l.
Proof.
  intros Hunit Hmult a b Ha Hb.
  destruct (Hmult a Ha) as [n Hn], (Hmult b Hb) as [m Hm].
  destruct (Z.eq_dec n m) as [->|Hne]; [left; now rewrite Hn, Hm|].
  right.
  assert (Hpos : 0 < half_least_double) by reflexivity.
  assert (E : key a - key b == inject_Z (n - m) * unit).
  { rewrite Hn, Hm. unfold Z.sub. rewrite inject_Z_plus, inject_Z_opp. ring. }
  rewrite E, Qabs_Qmult, (Qabs_pos unit) by lra.
  assert (H1 : 1 <= Qabs (inject_Z (n - m))).
  { unfold inject_Z. rewrite <- Zabs_Qabs.
    unfold Qle. cbn [Qnum Qden]. lia. }
  nra.
Qed.

Lemma customSort_by_field (filterOptions : Current.PoolFilterOptions)
    (pools : list Pool) (field : string) :
  or_else (Current.sortField filterOptions) "totalLiquidity"%string = field ->
  Current.customSort filterOptions pools
  = if (field =? "totalLiquidity")%string then pools
    else if (field =? "apr")%string then
      JS.sort (fun a b => Current.aprMax b - Current.aprMax a) pools
    else if (field =? "volume")%string then
      JS.sort (fun a b =>
                 toNumber (BigNumber_minus (bnum (Current.totalSwapVolumeOf b))
                             (bnum (Current.totalSwapVolumeOf a)))) pools
    else pools.
Proof.
  intros <-. reflexivity.
Qed.

Lemma customSort_apr_sorted (pools : list Pool) :
  StronglySorted (descending_by Current.aprMax)
    (JS.sort (fun a b => Current.aprMax b - Current.aprMax a) pools).
Proof.
  apply sort_sorted_on with (P := fun _ => True).
  - intros a b _ _. apply apr_compare.
  - apply Forall_forall. trivial.
Qed.

Lemma customSort_volume_sorted (pools : list Pool) :
  distinguishable Current.totalSwapVolumeOf pools ->
  StronglySorted (descending_by Current.totalSwapVolumeOf)
    (JS.sort (fun a b =>
                toNumber (BigNumber_minus (bnum (Current.totalSwapVolumeOf b))
                            (bnum (Current.totalSwapVolumeOf a)))) pools).
Proof.
  intros Hd. apply sort_sorted_on with (P := fun p => In p pools).
  - intros a b Ha Hb. apply volume_compare_distinguishable. now apply Hd.
  - apply Forall_forall. trivial.
Qed.


Lemma sample_volumes_distinguishable :
  distinguishable Current.totalSwapVolumeOf [Sample.p1; Sample.p2; Sample.p3].
Proof.
  intros a b Ha Hb. simpl in Ha, Hb.
  destruct Ha as [<-|[<-|[<-|[]]]], Hb as [<-|[<-|[<-|[]]]];
    solve [left; reflexivity | right; reflexivity].
Qed.



(** The scenario of the specification: volumes 10, 10^18 and 5 come out as
    10^18, 10, 5; and sorting by [apr] puts the maxima 3, 1, 2 in the order
    3, 2, 1. *)
Example customSort_volume_scenario :
  map totalSwapVolume
    (Current.customSort (Sample.sortBy "volume") [Sample.p1; Sample.p2; Sample.p3])
  = [Some (10 ^ 18); Some 10; Some 5]
  /\ Current.customSort (Sample.sortBy "apr") [Sample.p1; Sample.p2; Sample.p3]
     = [Sample.p1; Sample.p3; Sample.p2].
Proof.
  split; vm_compute; reflexivity.
Qed.

(** Two volumes that differ by one unit at 10^18, which a double cannot
    tell apart, are still put in descending order. *)
Example customSort_volume_exact :
  Current.customSort (Sample.sortBy "volume")
    [Sample.pool "a" (10 ^ 18) 0; Sample.pool "b" (10 ^ 18 + 1) 0]
  = [Sample.pool "b" (10 ^ 18 + 1) 0; Sample.pool "a" (10 ^ 18) 0].
Proof.
  vm_compute. reflexivity.
Qed.

(** * Further properties of the two composables *)

(** ** The legacy builder *)

Section LegacyBuilder.
Variables (network_chainId : Z) (ExcludedPoolTypes BlockList : list string).
Variables (tokenList : list string) (filterOptions : option Legacy.FilterOptions).

Let args := Legacy.getQueryArgs network_chainId ExcludedPoolTypes BlockList
              tokenList filterOptions.

Ltac split_legacy_updates :=
  repeat match goal with
         | |- context [if ?b then Legacy.set_skip _ _ else _] => destruct b
         | |- context [if ?b then Legacy.set_where_id _ _ else _] => destruct b
         | |- context [if ?b then Legacy.set_where_address _ _ else _] => destruct b
         | |- context [if ?b then Legacy.delete_first _ else _] => destruct b
         end.

Lemma legacy_skip (pageParam : option string) :
  Legacy.skip (args pageParam)
  = match pageParam with
    | Some (String c s) => Some (String c s)
    | _ => None
    end.
Proof.
  unfold args, Legacy.getQueryArgs.
  destruct pageParam as [[|c s]|]; simpl; split_legacy_updates; reflexivity.
Qed.

Lemma legacy_where_address (pageParam : option string) :
  Legacy.where_address (Legacy.where_ (args pageParam))
  = if truthy (Legacy.ref_length filterOptions Legacy.poolAddresses)
    then Some (Legacy.Op.In (Legacy.ref_value filterOptions Legacy.poolAddresses))
    else None.
Proof.
  unfold args, Legacy.getQueryArgs.
  destruct (truthy (Legacy.ref_length filterOptions Legacy.poolAddresses));
    split_legacy_updates; reflexivity.
Qed.

(** X2.  Whatever the token list, the filter options and the cursor, the
    legacy builder asks for chain [network_chainId], orders by total
    liquidity, excludes the excluded pool types and requires more than 0.01
    total shares: no option removes or replaces these. *)
Theorem legacy_fixed_filters (pageParam : option string) :
  Legacy.chainId (args pageParam) = network_chainId
  /\ Legacy.orderBy (args pageParam) = "totalLiquidity"%string
  /\ Legacy.where_poolType (Legacy.where_ (args pageParam))
     = Legacy.Op.NotIn ExcludedPoolTypes
  /\ Legacy.where_totalShares (Legacy.where_ (args pageParam))
     = Legacy.Op.GreaterThan (1 # 100).
Proof.
  unfold args, Legacy.getQueryArgs.
  split_legacy_updates; repeat split; reflexivity.
Qed.

End LegacyBuilder.

(** X3.  In the legacy builder each allow-list decides its own field only.
    An absent or empty pool-id list leaves the block-list exclusion on [id];
    an absent or empty address list leaves [address] out; a non-empty list
    puts [In] of that list on its field, whatever the other list holds. *)
Theorem legacy_allow_lists :
  forall (chainId : Z) (ExcludedPoolTypes BlockList tokenList : list string)
         (filterOptions : option Legacy.FilterOptions) (pageParam : option string),
    let w :=
      Legacy.where_
        (Legacy.getQueryArgs chainId ExcludedPoolTypes BlockList tokenList
           filterOptions pageParam) in
    let list_of (f : Legacy.FilterOptions -> option (list string)) :=
      match filterOptions with
      | Some fo => nullish (f fo) []
      | None => []
      end in
    Legacy.where_id w
    = match list_of Legacy.poolIds with
      | [] => Legacy.Op.NotIn BlockList
      | i :: ids => Legacy.Op.In (i :: ids)
      end
    /\
    Legacy.where_address w
    = match list_of Legacy.poolAddresses with
      | [] => None
      | a :: addresses => Some (Legacy.Op.In (a :: addresses))
      end.
Proof.
  intros. subst w list_of. rewrite legacy_where_id, legacy_where_address.
  unfold Legacy.ref_length, Legacy.ref_value.
  destruct filterOptions as [[ids addrs exact size]|]; simpl.
  - destruct ids as [[|i ids]|], addrs as [[|a addrs]|]; split; reflexivity.
  - split; reflexivity.
Qed.

(** X4.  The legacy builder never reads [pageSize]: filter options that
    agree on the two allow-lists and on the exact-match flag build the same
    arguments. *)
Theorem legacy_ignores_pageSize :
  forall (chainId : Z) (ExcludedPoolTypes BlockList tokenList : list string)
         (fo1 fo2 : Legacy.FilterOptions) (pageParam : option string),
    Legacy.poolIds fo1 = Legacy.poolIds fo2 ->
    Legacy.poolAddresses fo1 = Legacy.poolAddresses fo2 ->
    Legacy.isExactTokensList fo1 = Legacy.isExactTokensList fo2 ->
    Legacy.getQueryArgs chainId ExcludedPoolTypes BlockList tokenList
      (Some fo1) pageParam
    = Legacy.getQueryArgs chainId ExcludedPoolTypes BlockList tokenList
        (Some fo2) pageParam.
Proof.
  intros * Hids Haddrs Hexact.
  destruct fo1 as [ids1 addrs1 exact1 size1], fo2 as [ids2 addrs2 exact2 size2].
  simpl in *. subst. reflexivity.
Qed.

Lemma legacy_ignores_pageSize_witness :
  Legacy.getQueryArgs 1 [] [] []
    (Some {| Legacy.poolIds := Some ["0x01"%string]; Legacy.poolAddresses := None;
             Legacy.isExactTokensList := Some true; Legacy.pageSize := Some 5%Z |})
    None
  = Legacy.getQueryArgs 1 [] [] []
      (Some {| Legacy.poolIds := Some ["0x01"%string]; Legacy.poolAddresses := None;
               Legacy.isExactTokensList := Some true; Legacy.pageSize := Some 500%Z |})
      None.
Proof.
  apply legacy_ignores_pageSize; reflexivity.
Defined.

(** X1.  The cursor travels unchanged from one page to the next request of
    the legacy composable: for every page its query function returns, the
    arguments built for the cursor that [getNextPageParam] reads off the page
    carry exactly the page's [skip], and carry none when the page has none. *)
Theorem legacy_cursor_round_trip :
  forall (chainId : Z) (ExcludedPoolTypes BlockList tokenList : list string)
         (filterOptions : option Legacy.FilterOptions)
         (api subgraph : Legacy.Repository)
         (Gauge Prices Currency TokenMeta : Type)
         (gauges : option (list Gauge)) (prices : Prices) (currency : Currency)
         (tokenMeta : TokenMeta)
         (decorate : list Pool -> list Gauge -> Prices -> Currency -> TokenMeta ->
                     Completion (list Pool))
         (pageParam : option string) (page : Legacy.PoolsQueryResponse),
    Legacy.queryFn chainId ExcludedPoolTypes BlockList tokenList filterOptions
      api subgraph gauges prices currency tokenMeta decorate pageParam
    = Return page ->
    Legacy.skip
      (Legacy.getQueryArgs chainId ExcludedPoolTypes BlockList tokenList
         filterOptions (Legacy.getNextPageParam page))
    = Legacy.resp_skip page.
Proof.
  intros * Hpage. rewrite legacy_skip. unfold Legacy.getNextPageParam.
  pose proof (legacy_queryFn_skip _ _ _ _ _ _ _ _ _ _ _ _ _ Hpage) as Hskip.
  destruct (Legacy.resp_skip page) as [[|c s]|]; congruence.
Qed.

Lemma legacy_cursor_round_trip_witness :
  let page :=
    {| Legacy.resp_pools := [Sample.p1; Sample.p2];
       Legacy.resp_skip := Some "5"%string;
       Legacy.resp_enabled := Some true |} in
  Legacy.skip (Legacy.getQueryArgs 1 [] [] [] None (Legacy.getNextPageParam page))
  = Some "5"%string.
Proof.
  intros page.
  apply (@legacy_cursor_round_trip 1 [] [] [] None Sample.sourceA Sample.sourceB
           unit unit unit unit (Some [tt]) tt tt tt (fun pools _ _ _ _ => Return pools)
           None page).
  reflexivity.
Defined.

(** ** Letter case of token addresses *)

Lemma lower_ascii_idempotent (c : ascii) : lower_ascii (lower_ascii c) = lower_ascii c.
Proof.
  destruct c as [[] [] [] [] [] [] [] []]; reflexivity.
Qed.

Lemma toLowerCase_idempotent (s : string) : toLowerCase (toLowerCase s) = toLowerCase s.
Proof.
  induction s as [|c rest IH]; simpl; [reflexivity|].
  now rewrite lower_ascii_idempotent, IH.
Qed.

(** X5.  The built arguments do not depend on the letter case of the token
    addresses: two token lists that agree once lower-cased build the same
    arguments, in the legacy builder and in the current one. *)
Theorem built_args_case_insensitive :
  forall (chainId : Z) (ExcludedPoolTypes BlockList : list string)
         (legacyOptions : option Legacy.FilterOptions) (cursor : option string)
         (IncludedPoolTypes : list string)
         (mapNetworkToApiChain : Z -> string) (mapPoolTypeToApiType : string -> string)
         (poolIds poolTypes : option (list string)) (sortField : option string)
         (filter_first pageSize : option Z)
         (options : Current.PoolsRepositoryFetchOptions)
         (tokens1 tokens2 : list string),
    map toLowerCase tokens1 = map toLowerCase tokens2 ->
    Legacy.getQueryArgs chainId ExcludedPoolTypes BlockList tokens1 legacyOptions cursor
    = Legacy.getQueryArgs chainId ExcludedPoolTypes BlockList tokens2 legacyOptions cursor
    /\
    Current.getQueryArgs chainId IncludedPoolTypes BlockList mapNetworkToApiChain
      mapPoolTypeToApiType
      {| Current.tokens := Some tokens1; Current.poolIds := poolIds;
         Current.poolTypes := poolTypes; Current.sortField := sortField;
         Current.filter_first := filter_first; Current.pageSize := pageSize |}
      options
    = Current.getQueryArgs chainId IncludedPoolTypes BlockList mapNetworkToApiChain
        mapPoolTypeToApiType
        {| Current.tokens := Some tokens2; Current.poolIds := poolIds;
           Current.poolTypes := poolTypes; Current.sortField := sortField;
           Current.filter_first := filter_first; Current.pageSize := pageSize |}
        options.
Proof.
  intros * Hcase.
  assert (Hlen : List.length tokens1 = List.length tokens2).
  { rewrite <- (length_map toLowerCase tokens1), Hcase. apply length_map. }
  split.
  - unfold Legacy.getQueryArgs. rewrite Hcase, Hlen. reflexivity.
  - unfold Current.getQueryArgs. simpl. rewrite Hcase. reflexivity.
Qed.

Lemma built_args_case_insensitive_witness :
  Legacy.getQueryArgs 1 [] [] ["0xAbC"%string] None None
  = Legacy.getQueryArgs 1 [] [] ["0xabc"%string] None None
  /\
  Current.getQueryArgs 1 [] [] (fun _ => "MAINNET"%string) (fun t => t)
    {| Current.tokens := Some ["0xAbC"%string]; Current.poolIds := None;
       Current.poolTypes := None; Current.sortField := None;
       Current.filter_first := None; Current.pageSize := None |}
    {| Current.opt_first := Some 10%Z; Current.opt_skip := None |}
  = Current.getQueryArgs 1 [] [] (fun _ => "MAINNET"%string) (fun t => t)
      {| Current.tokens := Some ["0xabc"%string]; Current.poolIds := None;
         Current.poolTypes := None; Current.sortField := None;
         Current.filter_first := None; Current.pageSize := None |}
      {| Current.opt_first := Some 10%Z; Current.opt_skip := None |}.
Proof.
  apply built_args_case_insensitive. reflexivity.
Defined.

(** A token list and its lower-cased form are one such pair. *)
Lemma lower_cased_tokens_build_the_same (l : list string) :
  map toLowerCase (map toLowerCase l) = map toLowerCase l.
Proof.
  rewrite map_map. apply map_ext. intros a. apply toLowerCase_idempotent.
Qed.

(** ** The current builder *)

(** X6.  The client-side sort reorders the pools only when the backend is
    asked for another order than total liquidity.  When
    [convertSortFieldToOrderBy] gives [TotalLiquidity], which it does for an
    absent, empty or unknown sort field, [customSort] returns the pools as
    they are.  When it gives [Apr] the sort field is [apr] and [customSort]
    returns the pools in descending order of [apr.max].  When it gives
    [Volume24h] the sort field is [volume] and [customSort] orders by
    [totalSwapVolume], the total and not the 24h volume, descending provided
    any two volumes are equal or differ by more than half the least positive
    double. *)
Theorem customSort_follows_orderBy :
  forall (filterOptions : Current.PoolFilterOptions) (pools : list Pool),
    match Current.convertSortFieldToOrderBy (Current.sortField filterOptions) with
    | Current.TotalLiquidity => Current.customSort filterOptions pools = pools
    | Current.Apr =>
        Current.sortField filterOptions = Some "apr"%string
        /\ StronglySorted (descending_by Current.aprMax)
             (Current.customSort filterOptions pools)
    | Current.Volume24h =>
        Current.sortField filterOptions = Some "volume"%string
        /\ (distinguishable Current.totalSwapVolumeOf pools ->
            StronglySorted (descending_by Current.totalSwapVolumeOf)
              (Current.customSort filterOptions pools))
    end.
Proof.
  intros filterOptions pools.
  unfold Current.convertSortFieldToOrderBy.
  destruct (Current.sortField filterOptions) as [f|] eqn:Hf.
  - destruct (String.eqb_spec f "apr") as [->|Hapr].
    + split; [reflexivity|].
      rewrite (@customSort_by_field filterOptions pools "apr"%string)
        by (rewrite Hf; reflexivity).
      simpl. apply customSort_apr_sorted.
    + destruct (String.eqb_spec f "volume") as [->|Hvolume].
      * split; [reflexivity|].
        rewrite (@customSort_by_field filterOptions pools "volume"%string)
          by (rewrite Hf; reflexivity).
        simpl. apply customSort_volume_sorted.
      * rewrite (customSort_by_field filterOptions pools eq_refl), Hf.
        destruct f as [|c f]; [reflexivity|]. simpl or_else.
        destruct (String.eqb_spec (String c f) "totalLiquidity"); [reflexivity|].
        destruct (String.eqb_spec (String c f) "apr"); [contradiction|].
        destruct (String.eqb_spec (String c f) "volume"); [contradiction|].
        reflexivity.
  - rewrite (customSort_by_field filterOptions pools eq_refl), Hf. reflexivity.
Qed.

Lemma customSort_follows_orderBy_witness :
  let pools := [Sample.p1; Sample.p2; Sample.p3] in
  StronglySorted (descending_by Current.totalSwapVolumeOf)
    (Current.customSort (Sample.sortBy "volume") pools)
  /\ Current.customSort (Sample.sortBy "fees") pools = pools.
Proof.
  intros pools. split.
  - pose proof (customSort_follows_orderBy (Sample.sortBy "volume") pools) as H.
    hnf in H. destruct H as (_ & Hsorted).
    apply Hsorted, sample_volumes_distinguishable.
  - exact (customSort_follows_orderBy (Sample.sortBy "fees") pools).
Defined.

(** X7.  The pool-type filter of the current builder is never left empty by
    the caller's filter: an absent or empty [poolTypes] asks for all the
    included pool types, and a non-empty one asks for exactly its own types,
    each mapped to its API name; the chain filter always holds the one chain
    of the configured network. *)
Theorem current_pool_type_filter :
  forall (chainId : Z) (IncludedPoolTypes BlockList : list string)
         (mapNetworkToApiChain : Z -> string) (mapPoolTypeToApiType : string -> string)
         (filterOptions : Current.PoolFilterOptions)
         (options : Current.PoolsRepositoryFetchOptions),
  exists w,
    Current.where_
      (Current.getQueryArgs chainId IncludedPoolTypes BlockList mapNetworkToApiChain
         mapPoolTypeToApiType filterOptions options)
    = Some w
    /\ Current.chainIn w = [mapNetworkToApiChain chainId]
    /\ Current.poolTypeIn w
       = map mapPoolTypeToApiType
           (match nullish (Current.poolTypes filterOptions) [] with
            | [] => IncludedPoolTypes
            | t :: ts => t :: ts
            end).
Proof.
  intros. rewrite current_where. eexists. split; [reflexivity|]. simpl.
  split; [reflexivity|].
  destruct (Current.poolTypes filterOptions) as [[|t ts]|]; reflexivity.
Qed.

(** ** Offsets of the current composable *)

Section CurrentOffsets.
Variables (network_chainId : Z) (IncludedPoolTypes BlockList : list string).
Variable PerPage : Z.
Variable mapNetworkToApiChain : Z -> string.
Variable mapPoolTypeToApiType : string -> string.
Variable tokenTreeLeafs : list PoolToken -> list string.
Variable isBalancerApiDefined : bool.
Variable pools_get : Current.ApiArgs -> Completion (list Pool).
Variable filterOptions : Current.PoolFilterOptions.

Let getQueryArgs := Current.getQueryArgs network_chainId IncludedPoolTypes BlockList
                      mapNetworkToApiChain mapPoolTypeToApiType filterOptions.
Let getFetchOptions := Current.getFetchOptions PerPage filterOptions.
Let queryFn :=
  Current.queryFn network_chainId IncludedPoolTypes BlockList PerPage
    mapNetworkToApiChain mapPoolTypeToApiType tokenTreeLeafs isBalancerApiDefined
    pools_get filterOptions.

Lemma current_skip (options : Current.PoolsRepositoryFetchOptions) :
  Current.skip (getQueryArgs options)
  = if truthy (Current.opt_skip options) then Current.opt_skip options else None.
Proof.
  unfold getQueryArgs, Current.getQueryArgs.
  destruct (truthy (Current.opt_skip options)) eqn:Hskip;
    repeat match goal with
           | |- context [if ?b then Current.set_poolTypeIn _ _ else _] => destruct b
           | |- context [if ?b then Current.set_idIn _ _ else _] => destruct b
           | |- context [if ?b then Current.set_first _ _ else _] => destruct b
           end;
    try reflexivity;
    destruct (Current.opt_skip options); simpl; (reflexivity || discriminate).
Qed.

Lemma current_request_skip (pageParam : option Z) :
  Current.skip (getQueryArgs (getFetchOptions pageParam))
  = if (0 <? nullish pageParam 0)%Z then Some (nullish pageParam 0%Z) else None.
Proof.
  rewrite current_skip. unfold getFetchOptions. rewrite current_opt_skip.
  destruct (Z.ltb_spec 0 (nullish pageParam 0%Z)) as [Hlt|Hge]; [|reflexivity].
  now rewrite truthy_positive.
Qed.

Lemma current_queryFn_cursor (pageParam : option Z) (w w' : Current.World)
    (page : Current.PoolsQueryResponse) :
  queryFn pageParam w = (Return page, w') ->
  Current.resp_skip page
  = Some (JS.add (or_else (Current.pageSize filterOptions) PerPage)
            (Z.max 0 (nullish pageParam 0%Z))).
Proof.
  intros Hq.
  destruct (pools_get (getQueryArgs (getFetchOptions pageParam))) as [pools|e] eqn:Hget.
  - destruct (@current_queryFn_success network_chainId IncludedPoolTypes BlockList
                PerPage mapNetworkToApiChain mapPoolTypeToApiType tokenTreeLeafs
                isBalancerApiDefined pools_get filterOptions pageParam w pools Hget)
      as (w'' & Hs & _).
    fold queryFn in Hs. rewrite Hs in Hq. now injection Hq as <- _.
  - pose proof (@current_queryFn_failure network_chainId IncludedPoolTypes BlockList
                  PerPage mapNetworkToApiChain mapPoolTypeToApiType tokenTreeLeafs
                  isBalancerApiDefined pools_get filterOptions pageParam w e Hget)
      as Hf.
    fold queryFn in Hf. rewrite Hf in Hq.
    destruct (Current.poolsStore w) as [[|p ps]|]; try discriminate.
    now injection Hq as <- _.
Qed.

End CurrentOffsets.

(** X8.  The offset sent to the backend is the page parameter when that is
    positive; an absent, zero or negative page parameter sends no offset at
    all, so the request starts from the first pool. *)
Theorem current_offset_of_page_param :
  forall (chainId : Z) (IncludedPoolTypes BlockList : list string) (PerPage : Z)
         (mapNetworkToApiChain : Z -> string) (mapPoolTypeToApiType : string -> string)
         (filterOptions : Current.PoolFilterOptions) (pageParam : option Z),
    let args :=
      Current.getQueryArgs chainId IncludedPoolTypes BlockList mapNetworkToApiChain
        mapPoolTypeToApiType filterOptions
        (Current.getFetchOptions PerPage filterOptions pageParam) in
    match pageParam with
    | Some n => if (0 <? n)%Z then Current.skip args = Some n
                else Current.skip args = None
    | None => Current.skip args = None
    end.
Proof.
  intros. subst args. rewrite current_request_skip.
  destruct pageParam as [n|]; simpl; [|reflexivity].
  destruct (0 <? n)%Z; reflexivity.
Qed.

(** X9.  With a positive page size in use, and as long as the page size,
    the offset and their sum are integers up to 2^53, every page the current
    query function returns, fetched or served from the pool store, makes the
    next request start exactly one page size after the offset of this one,
    whatever [filterOptions.first] is; the number of pools asked for in
    both requests, however, is [filterOptions.first] when that is set and
    non-zero, and the page size otherwise. *)
Theorem current_windows_advance_by_page_size :
  forall (chainId : Z) (IncludedPoolTypes BlockList : list string) (PerPage : Z)
         (mapNetworkToApiChain : Z -> string) (mapPoolTypeToApiType : string -> string)
         (tokenTreeLeafs : list PoolToken -> list string)
         (isBalancerApiDefined : bool)
         (pools_get : Current.ApiArgs -> Completion (list Pool))
         (filterOptions : Current.PoolFilterOptions)
         (pageParam : option Z) (w w' : Current.World)
         (page : Current.PoolsQueryResponse),
    let size := or_else (Current.pageSize filterOptions) PerPage in
    let offset := Z.max 0 (nullish pageParam 0%Z) in
    let request (cursor : option Z) :=
      Current.getQueryArgs chainId IncludedPoolTypes BlockList mapNetworkToApiChain
        mapPoolTypeToApiType filterOptions
        (Current.getFetchOptions PerPage filterOptions cursor) in
    (0 < size)%Z ->
    safe_integer size -> safe_integer offset -> safe_integer (size + offset) ->
    Current.queryFn chainId IncludedPoolTypes BlockList PerPage mapNetworkToApiChain
      mapPoolTypeToApiType tokenTreeLeafs isBalancerApiDefined pools_get
      filterOptions pageParam w
    = (Return page, w') ->
    Current.skip (request (Current.getNextPageParam page))
    = Some (nullish (Current.skip (request pageParam)) 0 + size)%Z
    /\ Current.first (request pageParam)
       = Some (or_else (Current.filter_first filterOptions) size)
    /\ Current.first (request (Current.getNextPageParam page))
       = Some (or_else (Current.filter_first filterOptions) size).
Proof.
  intros * Hsize _ _ Hsum Hq.
  pose proof (current_queryFn_cursor _ _ _ _ _ _ _ _ _ _ _ _ Hq) as Hcursor.
  fold size offset in Hcursor. rewrite (add_exact _ _ Hsum) in Hcursor.
  assert (Hfirst : forall cursor,
             Current.first (request cursor)
             = Some (or_else (Current.filter_first filterOptions) size)).
  { intros cursor. unfold request. rewrite current_first, current_opt_first.
    fold size. rewrite (truthy_positive Hsize). reflexivity. }
  split; [|split; apply Hfirst].
  unfold request. rewrite !current_request_skip.
  unfold Current.getNextPageParam. rewrite Hcursor, or_else_number_zero. simpl.
  subst offset.
  destruct (Z.ltb_spec 0 (size + Z.max 0 (nullish pageParam 0%Z))) as [_|Hle];
    [|lia].
  destruct (Z.ltb_spec 0 (nullish pageParam 0%Z)); simpl; f_equal; lia.
Qed.

Lemma current_windows_advance_by_page_size_witness :
  let request (cursor : option Z) :=
    Current.getQueryArgs 1 [] [] (fun _ => "MAINNET"%string) (fun t => t)
      Sample.noFilter (Current.getFetchOptions 25 Sample.noFilter cursor) in
  let page :=
    {| Current.resp_pools := [Sample.p1; Sample.p2]; Current.resp_skip := Some 30%Z |} in
  Current.skip (request (Current.getNextPageParam page)) = Some 30%Z
  /\ Current.first (request (Some 20%Z)) = Some 10%Z
  /\ Current.first (request (Current.getNextPageParam page)) = Some 10%Z.
Proof.
  intros request page.
  apply (@current_windows_advance_by_page_size 1 [] [] 25%Z
           (fun _ => "MAINNET"%string) (fun t => t) (fun _ => []) true
           Sample.backendUp Sample.noFilter (Some 20%Z) Sample.emptyWorld
           (Current.addPools [Sample.p1; Sample.p2]
              (Current.injectTokens ["p1"; "p2"]%string Sample.emptyWorld))
           page).
  - reflexivity.
  - unfold safe_integer. simpl. lia.
  - unfold safe_integer. simpl. lia.
  - unfold safe_integer. simpl. lia.
  - reflexivity.
Defined.

(** Beyond 2^53 the sum is rounded: at offset 2^53 with a page size of 1 the
    page carries the cursor 2^53 again, and the next request starts where
    this one did. *)
Example current_window_stalls_at_2_53 :
  let filterOptions :=
    {| Current.tokens := None; Current.poolIds := None; Current.poolTypes := None;
       Current.sortField := None; Current.filter_first := None;
       Current.pageSize := Some 1%Z |} in
  fst (Current.queryFn 1 [] [] 10 (fun _ => "MAINNET"%string) (fun t => t)
         (fun _ => []) true Sample.backendDown filterOptions (Some (2 ^ 53)%Z)
         Sample.cachedWorld)
  = Return {| Current.resp_pools := [Sample.p3];
              Current.resp_skip := Some (2 ^ 53)%Z |}.
Proof.
  vm_compute. reflexivity.
Qed.

(** With [filterOptions.first] set to 50 and a page size of 10, each request
    asks for 50 pools while the offsets advance by 10. *)
Example current_windows_overlap :
  let filterOptions :=
    {| Current.tokens := None; Current.poolIds := None; Current.poolTypes := None;
       Current.sortField := None; Current.filter_first := Some 50%Z;
       Current.pageSize := Some 10%Z |} in
  let request (cursor : option Z) :=
    Current.getQueryArgs 1 [] [] (fun _ => "MAINNET"%string) (fun t => t)
      filterOptions (Current.getFetchOptions 25 filterOptions cursor) in
  (Current.first (request None), Current.skip (request None)) = (Some 50%Z, None)
  /\ (Current.first (request (Some 10%Z)), Current.skip (request (Some 10%Z)))
     = (Some 50%Z, Some 10%Z).
Proof.
  split; reflexivity.
Qed.

(** ** What a successful fetch returns and records *)

Lemma customSort_permutation (filterOptions : Current.PoolFilterOptions)
    (pools : list Pool) :
  Permutation pools (Current.customSort filterOptions pools).
Proof.
  rewrite (customSort_by_field filterOptions pools eq_refl).
  repeat match goal with
         | |- context [if ?b then _ else _] => destruct b
         end;
    (reflexivity || apply sort_permutation).
Qed.

(** X10.  When the backend returns, the current query function returns the
    backend's pools, none lost and none twice: in the backend's own order
    when the Balancer API is defined, and otherwise as the client-side sort
    rearranges them, whatever the sort field is. *)
Theorem current_queryFn_returns_backend_pools :
  forall (chainId : Z) (IncludedPoolTypes BlockList : list string) (PerPage : Z)
         (mapNetworkToApiChain : Z -> string) (mapPoolTypeToApiType : string -> string)
         (tokenTreeLeafs : list PoolToken -> list string)
         (isBalancerApiDefined : bool)
         (pools_get : Current.ApiArgs -> Completion (list Pool))
         (filterOptions : Current.PoolFilterOptions)
         (pageParam : option Z) (w : Current.World) (pools : list Pool),
    pools_get
      (Current.getQueryArgs chainId IncludedPoolTypes BlockList mapNetworkToApiChain
         mapPoolTypeToApiType filterOptions
         (Current.getFetchOptions PerPage filterOptions pageParam))
    = Return pools ->
    exists page w',
      Current.queryFn chainId IncludedPoolTypes BlockList PerPage mapNetworkToApiChain
        mapPoolTypeToApiType tokenTreeLeafs isBalancerApiDefined pools_get
        filterOptions pageParam w
      = (Return page, w')
      /\ Permutation pools (Current.resp_pools page)
      /\ (isBalancerApiDefined = true -> Current.resp_pools page = pools)
      /\ (isBalancerApiDefined = false ->
          Current.resp_pools page = Current.customSort filterOptions pools).
Proof.
  intros * Hget.
  destruct (@current_queryFn_success chainId IncludedPoolTypes BlockList PerPage
              mapNetworkToApiChain mapPoolTypeToApiType tokenTreeLeafs
              isBalancerApiDefined pools_get filterOptions pageParam w pools Hget)
    as (w' & Hq & _).
  eexists. exists w'. split; [exact Hq|]. simpl.
  destruct isBalancerApiDefined; simpl; repeat split;
    try reflexivity; try discriminate; auto using customSort_permutation.
Qed.

Lemma current_queryFn_returns_backend_pools_witness :
  exists page w',
    Current.queryFn 1 [] [] 10 (fun _ => "MAINNET"%string) (fun t => t) (fun _ => [])
      false Sample.backendUp (Sample.sortBy "volume") None Sample.emptyWorld
    = (Return page, w')
    /\ Permutation [Sample.p1; Sample.p2] (Current.resp_pools page)
    /\ (false = true -> Current.resp_pools page = [Sample.p1; Sample.p2])
    /\ (false = false ->
        Current.resp_pools page
        = Current.customSort (Sample.sortBy "volume") [Sample.p1; Sample.p2]).
Proof.
  apply (@current_queryFn_returns_backend_pools 1 [] [] 10%Z
           (fun _ => "MAINNET"%string) (fun t => t) (fun _ => []) false
           Sample.backendUp (Sample.sortBy "volume") None Sample.emptyWorld
           [Sample.p1; Sample.p2]).
  reflexivity.
Defined.

(** X11.  A fetch that the backend answers hands the token provider, in one
    call added after the earlier ones, a list that holds the address of every
    returned pool, every address of its [tokensList] and every leaf of its
    token tree; a fetch that the backend rejects makes no such call. *)
Theorem current_fetch_injects_tokens :
  forall (chainId : Z) (IncludedPoolTypes BlockList : list string) (PerPage : Z)
         (mapNetworkToApiChain : Z -> string) (mapPoolTypeToApiType : string -> string)
         (tokenTreeLeafs : list PoolToken -> list string)
         (isBalancerApiDefined : bool)
         (pools_get : Current.ApiArgs -> Completion (list Pool))
         (filterOptions : Current.PoolFilterOptions)
         (pageParam : option Z) (w : Current.World),
    let after :=
      snd (Current.queryFn chainId IncludedPoolTypes BlockList PerPage
             mapNetworkToApiChain mapPoolTypeToApiType tokenTreeLeafs
             isBalancerApiDefined pools_get filterOptions pageParam w) in
    match pools_get
            (Current.getQueryArgs chainId IncludedPoolTypes BlockList
               mapNetworkToApiChain mapPoolTypeToApiType filterOptions
               (Current.getFetchOptions PerPage filterOptions pageParam)) with
    | Return pools =>
        exists tokens,
          Current.injected after = Current.injected w ++ [tokens]
          /\ forall pool, In pool pools ->
               In (address pool) tokens
               /\ incl (tokensList pool) tokens
               /\ incl (tokenTreeLeafs (pool_tokens pool)) tokens
    | Throw _ => Current.injected after = Current.injected w
    end.
Proof.
  intros. subst after. unfold Current.queryFn, Current.fetch.
  destruct (pools_get _) as [pools|e]; simpl.
  - eexists. split; [reflexivity|].
    intros pool Hin.
    assert (Hsub : incl (tokensList pool ++ tokenTreeLeafs (pool_tokens pool)
                         ++ [address pool])
                     (List.concat
                        (map (fun pool0 =>
                                tokensList pool0 ++ tokenTreeLeafs (pool_tokens pool0)
                                ++ [address pool0]) pools))).
    { intros t Ht. apply in_concat. eexists. split; [|exact Ht].
      apply in_map_iff. exists pool. split; [reflexivity | exact Hin]. }
    repeat split.
    + apply Hsub. rewrite !in_app_iff. right. right. now left.
    + intros t Ht. apply Hsub. rewrite in_app_iff. now left.
    + intros t Ht. apply Hsub. rewrite !in_app_iff. right. now left.
  - destruct (truthy (Current.poolsStore w) && _); reflexivity.
Qed.

(** ** Stability and idempotence of the client-side sort *)



Lemma current_fetch_injects_tokens_witness :
  exists tokens,
    Current.injected
      (snd (Current.queryFn 1 [] [] 10 (fun _ => "MAINNET"%string) (fun t => t)
              (fun _ => []) true Sample.backendUp Sample.noFilter None
              Sample.emptyWorld))
    = [tokens]
    /\ In "p1"%string tokens
    /\ In "p2"%string tokens.
Proof.
  pose proof (@current_fetch_injects_tokens 1 [] [] 10%Z (fun _ => "MAINNET"%string)
                (fun t => t) (fun _ => []) true Sample.backendUp Sample.noFilter None
                Sample.emptyWorld) as H.
  hnf in H. destruct H as (tokens & Hinjected & Hpools).
  exists tokens. split; [exact Hinjected|]. split.
  - destruct (Hpools Sample.p1 (or_introl eq_refl)) as (Haddress & _).
    exact Haddress.
  - destruct (Hpools Sample.p2 (or_intror (or_introl eq_refl))) as (Haddress & _).
    exact Haddress.
Defined.


(** X14.  In the current builder an empty list filters like an absent one:
    an absent or empty [poolIds] sends no [idIn], and absent [tokens] send an
    empty [tokensIn]; the block-list goes out as [idNotIn] in every case. *)
Theorem current_empty_filters :
  forall (chainId : Z) (IncludedPoolTypes BlockList : list string)
         (mapNetworkToApiChain : Z -> string) (mapPoolTypeToApiType : string -> string)
         (filterOptions : Current.PoolFilterOptions)
         (options : Current.PoolsRepositoryFetchOptions),
  exists w,
    Current.where_
      (Current.getQueryArgs chainId IncludedPoolTypes BlockList mapNetworkToApiChain
         mapPoolTypeToApiType filterOptions options)
    = Some w
    /\ Current.idNotIn w = BlockList
    /\ Current.idIn w
       = match nullish (Current.poolIds filterOptions) [] with
         | [] => None
         | i :: ids => Some (i :: ids)
         end
    /\ (Current.tokens filterOptions = None -> Current.tokensIn w = [])
    /\ List.length (Current.tokensIn w)
       = List.length (nullish (Current.tokens filterOptions) []).
Proof.
  intros. rewrite current_where. eexists. split; [reflexivity|]. simpl.
  split; [reflexivity|]. split; [|split].
  - destruct (Current.poolIds filterOptions) as [[|i ids]|]; reflexivity.
  - intros ->. reflexivity.
  - apply length_map.
Qed.

Lemma current_empty_filters_witness :
  exists w,
    Current.where_
      (Current.getQueryArgs 1 [] ["0xbad"%string] (fun _ => "MAINNET"%string)
         (fun t => t) Sample.noFilter
         {| Current.opt_first := Some 10%Z; Current.opt_skip := None |})
    = Some w
    /\ Current.idNotIn w = ["0xbad"%string]
    /\ Current.idIn w = None
    /\ Current.tokensIn w = [].
Proof.
  destruct (@current_empty_filters 1 [] ["0xbad"%string] (fun _ => "MAINNET"%string)
              (fun t => t) Sample.noFilter
              {| Current.opt_first := Some 10%Z; Current.opt_skip := None |})
    as (w & Hw & Hnot & Hin & Htokens & _).
  exists w. split; [exact Hw|]. split; [exact Hnot|]. split; [exact Hin|].
  apply Htokens. reflexivity.
Defined.
